(** * fwupd-hybris: the device-descriptor aggregation of [fwupd.py]

    A shallow embedding of [FWUPDInterface.extract_prop] and
    [FWUPDInterface.set_props] (src/fwupd.py) together with the Python
    string operations and the fragment of [re] they rely on.

    Conventions of the model.
    - A Python [str] is a [string]; a character is a code point below 256.
      Case mapping ([upper], [capitalize]) is Python's on ASCII text only:
      every statement that applies it to a text that is not fixed assumes
      that text to be ASCII ([is_ascii]).
    - A text file is given by the text Python reads from it (after decoding
      and newline translation); a path is absent, a readable file, or an
      existing node whose [open] raises. A file that fails while it is
      being read is not among the files of the model: statements about an
      unreadable file are about a failing [open].
    - The output of a subprocess is the text its read returns; a read that
      raises (output that cannot be decoded) is not among the environments
      of the model.
    - A local variable that may be unbound is an [option]; reading [None]
      raises [UnboundLocalError].
    - [try ... except Exception] keeps the effects of the interrupted body. *)

From Stdlib Require Import String Ascii List Bool Arith NArith Lia.
Import ListNotations.

Local Open Scope string_scope.
Local Open Scope list_scope.

(** ** Python string operations *)

Module PyStr.

(** The double-quote character and the newline character. *)
Definition dq : ascii := "034"%char.
Definition nl : ascii := "010"%char.
Definition eq_sign : ascii := "="%char.

Definition chr (c : ascii) : string := String c EmptyString.

(** [c.isspace()] for code points below 256. *)
Definition isspace (c : ascii) : bool :=
  let n := nat_of_ascii c in
  (((9 <=? n) && (n <=? 13)) || ((28 <=? n) && (n <=? 32))
   || (n =? 133) || (n =? 160))%nat.

(** [\d] of [re] on [str] patterns: decimal digits; below 256 these are
    '0'..'9'. *)
Definition isdigit (c : ascii) : bool :=
  let n := nat_of_ascii c in ((48 <=? n) && (n <=? 57))%nat.

(** The case mappings of an ASCII character. On the other characters
    Python's mappings differ (some lead out of the code points below 256);
    they are not modelled, and the statements keep to ASCII texts. *)
Definition upper_char (c : ascii) : ascii :=
  let n := nat_of_ascii c in
  if ((97 <=? n) && (n <=? 122))%nat then ascii_of_nat (n - 32) else c.

Definition lower_char (c : ascii) : ascii :=
  let n := nat_of_ascii c in
  if ((65 <=? n) && (n <=? 90))%nat then ascii_of_nat (n + 32) else c.

Fixpoint map_chars (f : ascii -> ascii) (s : string) : string :=
  match s with
  | EmptyString => EmptyString
  | String c s' => String (f c) (map_chars f s')
  end.

(** [s.upper()], [s.lower()], [s.capitalize()], for an ASCII text [s]. *)
Definition upper (s : string) : string := map_chars upper_char s.
Definition lower (s : string) : string := map_chars lower_char s.
Definition capitalize (s : string) : string :=
  match s with
  | EmptyString => EmptyString
  | String c s' => String (upper_char c) (lower s')
  end.

(** [s.startswith(p)]. *)
Fixpoint startswith (s p : string) : bool :=
  match p, s with
  | EmptyString, _ => true
  | String a p', String b s' => Ascii.eqb a b && startswith s' p'
  | String _ _, EmptyString => false
  end.

(** [sub in s]. *)
Fixpoint contains (sub s : string) : bool :=
  startswith s sub ||
  match s with
  | EmptyString => false
  | String _ s' => contains sub s'
  end.

(** [s.split(sep)] for a one-character separator: never empty. *)
Fixpoint split (sep : ascii) (s : string) : list string :=
  match s with
  | EmptyString => [EmptyString]
  | String c s' =>
      if Ascii.eqb c sep then EmptyString :: split sep s'
      else match split sep s' with
           | h :: t => String c h :: t
           | [] => [chr c]
           end
  end.

(** Iteration over a text file: the lines, each with its newline. *)
Fixpoint lines (s : string) : list string :=
  match s with
  | EmptyString => []
  | String c s' =>
      if Ascii.eqb c nl then chr c :: lines s'
      else match lines s' with
           | h :: t => String c h :: t
           | [] => [chr c]
           end
  end.

Fixpoint lstrip_by (p : ascii -> bool) (s : string) : string :=
  match s with
  | EmptyString => EmptyString
  | String c s' => if p c then lstrip_by p s' else s
  end.

Fixpoint rstrip_by (p : ascii -> bool) (s : string) : string :=
  match s with
  | EmptyString => EmptyString
  | String c s' =>
      match rstrip_by p s' with
      | EmptyString => if p c then EmptyString else chr c
      | r => String c r
      end
  end.

Definition strip_by (p : ascii -> bool) (s : string) : string :=
  rstrip_by p (lstrip_by p s).

(** [s.strip()] and [s.strip(chars)] for a one-character [chars]. *)
Definition strip (s : string) : string := strip_by isspace s.
Definition strip_char (c : ascii) (s : string) : string :=
  strip_by (Ascii.eqb c) s.

(** Truthiness of a string, and [s != '']. *)
Definition truthy (s : string) : bool :=
  match s with EmptyString => false | _ => true end.

End PyStr.
Import PyStr.

(** ** Exceptions and results *)

Inductive exn : Type :=
| FileNotFoundError (path : string)
| OSError (path : string)
| IndexError
| ValueError
| AttributeError
| KeyError (key : string)
| UnboundLocalError (var : string)
| DBusException.

Inductive result (A : Type) : Type :=
| Ok (a : A)
| Raise (e : exn).
Arguments Ok {A} a.
Arguments Raise {A} e.

Definition rbind {A B} (r : result A) (k : A -> result B) : result B :=
  match r with
  | Ok a => k a
  | Raise e => Raise e
  end.

(** ** The file system *)

Inductive node : Type :=
| File (text : string)
| Unreadable.

Definition filesystem := string -> option node.

(** [os.path.exists(path)]. *)
Definition path_exists (fs : filesystem) (path : string) : bool :=
  match fs path with Some _ => true | None => false end.

(** [open(path, 'r')] followed by reading the whole text. *)
Definition open_read (fs : filesystem) (path : string) : result string :=
  match fs path with
  | None => Raise (FileNotFoundError path)
  | Some Unreadable => Raise (OSError path)
  | Some (File text) => Ok text
  end.

(** ** [extract_prop] (fwupd.py, lines 344-365) *)

Definition prop_files : list string :=
  [ "/var/lib/lxc/android/rootfs/vendor/build.prop";
    "/android/vendor/build.prop";
    "/vendor/build.prop";
    "/var/lib/lxc/android/rootfs/odm/etc/build.prop";
    "/android/odm/etc/build.prop";
    "/odm/etc/build.prop";
    "/vendor/odm_dlkm/etc/build.prop" ].

(** The [for file in prop_files] loop with its [break]: the value bound to
    the loop variable [file] when the loop is left ([None]: unbound). The
    assignment to [prop_file] is dead, line 360 opens [file]. *)
Fixpoint select_file (fs : filesystem) (files : list string)
    (file : option string) : option string :=
  match files with
  | [] => file
  | f :: rest =>
      if path_exists fs f then Some f else select_file fs rest (Some f)
  end.

(** The [for line in f] loop: the first line that starts with [prop]
    decides. *)
Fixpoint scan_prop_lines (prop : string) (ls : list string) : result string :=
  match ls with
  | [] => Ok EmptyString
  | line :: rest =>
      if startswith line prop then
        match nth_error (split eq_sign line) 1 with
        | Some v => Ok (strip v)
        | None => Raise IndexError
        end
      else scan_prop_lines prop rest
  end.

Definition extract_prop (fs : filesystem) (prop : string) : result string :=
  match select_file fs prop_files None with
  | None => Raise (UnboundLocalError "file")
  | Some file =>
      rbind (open_read fs file) (fun text => scan_prop_lines prop (lines text))
  end.


(** ** The fragment of [re] used by the sensor parser

    Backtracking is modelled by the list of all ways a pattern matches at
    the start of a text, in the order in which the engine tries them (a
    greedy [+] first takes all it can); the first one is the match. The
    fragment has literals, [X+] for a character class [X], concatenation and
    capturing groups, which is what the pattern of line 126 is made of. *)

Module Re.

Inductive regex : Type :=
| Eps
| Chr (c : ascii)
| Plus (cls : ascii -> bool)
| Cat (r1 r2 : regex)
| Group (r : regex).

(** A way to match: the text matched, the text left, the captured groups in
    the order of their opening parentheses. *)
Definition way : Type := string * string * list string.

(** The ways [X+] matches at the start of [s], longest first. *)
Fixpoint plus_ways (cls : ascii -> bool) (s : string) : list (string * string) :=
  match s with
  | EmptyString => []
  | String c s' =>
      if cls c then
        map (fun mr => (String c (fst mr), snd mr)) (plus_ways cls s')
          ++ [(chr c, s')]
      else []
  end.

Fixpoint ways (r : regex) (s : string) : list way :=
  match r with
  | Eps => [(EmptyString, s, [])]
  | Chr c =>
      match s with
      | String a s' => if Ascii.eqb a c then [(chr c, s', [])] else []
      | EmptyString => []
      end
  | Plus cls => map (fun mr => (fst mr, snd mr, [])) (plus_ways cls s)
  | Cat r1 r2 =>
      flat_map
        (fun w1 : way =>
           let '(m1, s1, g1) := w1 in
           map (fun w2 : way =>
                  let '(m2, s2, g2) := w2 in
                  ((m1 ++ m2)%string, s2, g1 ++ g2))
               (ways r2 s1))
        (ways r1 s)
  | Group r' =>
      map (fun w : way => let '(m, s', g) := w in (m, s', m :: g)) (ways r' s)
  end.

(** [pattern.match] at the start of [s]. *)
Definition match_here (r : regex) (s : string) : option way :=
  hd_error (ways r s).

(** [pattern.findall(s)] for a pattern with groups that never matches the
    empty text: the groups of the leftmost match, then the search goes on
    where that match ended. [skip] counts the characters still covered by
    the last match. *)
Fixpoint findall_from (r : regex) (skip : nat) (s : string) : list (list string) :=
  match s with
  | EmptyString => []
  | String _ s' =>
      match skip with
      | S n => findall_from r n s'
      | O =>
          match match_here r s with
          | Some (m, _, g) => g :: findall_from r (String.length m - 1) s'
          | None => findall_from r 0 s'
          end
      end
  end.

Definition findall (r : regex) (s : string) : list (list string) :=
  findall_from r 0 s.

(** A literal text. *)
Fixpoint str (s : string) : regex :=
  match s with
  | EmptyString => Eps
  | String c s' => Cat (Chr c) (str s')
  end.

Fixpoint seq (rs : list regex) : regex :=
  match rs with
  | [] => Eps
  | r :: rs' => Cat r (seq rs')
  end.

End Re.

(** ** D-Bus values, dictionaries and the state of the service object *)

#[local] Set Warnings "-register-all".
Inductive Variant : Type :=
| V_s (s : string)
| V_b (b : bool)
| V_u (n : N)
| V_t (n : N)
| V_aasv (l : list (list (string * Variant))).

(** A Python [dict] with string keys, in insertion order. *)
Definition dict : Type := list (string * Variant).

Fixpoint dict_get (k : string) (d : dict) : option Variant :=
  match d with
  | [] => None
  | (k', v) :: d' => if String.eqb k k' then Some v else dict_get k d'
  end.

Fixpoint dict_set (k : string) (v : Variant) (d : dict) : dict :=
  match d with
  | [] => [(k, v)]
  | (k', v') :: d' =>
      if String.eqb k k' then (k, v) :: d' else (k', v') :: dict_set k v d'
  end.

(** [self.props] and the commands handed to [os.popen] so far. *)
Record State : Type := mkState {
  props : dict;
  popen_log : list string
}.

(** The telephony manager as seen through [dbus]: absent or failing, or a
    reply to [GetModems]; an entry of the reply that does not unpack into
    [(path, properties)] is [Malformed]. *)
Inductive modem_entry : Type :=
| Modem (path : string) (properties : list (string * string))
| Malformed.

Inductive telephony : Type :=
| Unavailable
| Modems (reply : list modem_entry).

Record Env : Type := mkEnv {
  fs : filesystem;
  ofono_service : telephony;
  popen : string -> string
}.

(** ** State and exception monad of [set_props] *)

Definition M (A : Type) : Type := State -> result A * State.

Definition ret {A} (a : A) : M A := fun st => (Ok a, st).

Definition raise {A} (e : exn) : M A := fun st => (Raise e, st).

Definition bind {A B} (c : M A) (k : A -> M B) : M B :=
  fun st =>
    match c st with
    | (Ok a, st') => k a st'
    | (Raise e, st') => (Raise e, st')
    end.

Definition lift {A} (r : result A) : M A := fun st => (r, st).

Declare Scope py_scope.
Delimit Scope py_scope with py.
Notation "x <- c ;; k" := (bind c (fun x => k))
  (at level 100, c at next level, right associativity) : py_scope.
Notation "c ;;; k" := (bind c (fun _ => k))
  (at level 100, right associativity) : py_scope.
Local Open Scope py_scope.

(** Reading a local variable. *)
Definition read_local {A} (name : string) (v : option A) : result A :=
  match v with
  | Some a => Ok a
  | None => Raise (UnboundLocalError name)
  end.

(** [self.props[k] = v]. *)
Definition set_prop (k : string) (v : Variant) : M unit :=
  fun st => (Ok tt, mkState (dict_set k v (props st)) (popen_log st)).

(** [self.props['Devices'].value.append(d)]. *)
Definition append_device (d : dict) : M unit :=
  fun st =>
    match dict_get "Devices" (props st) with
    | Some (V_aasv l) =>
        (Ok tt,
         mkState (dict_set "Devices" (V_aasv (l ++ [d])) (props st))
                 (popen_log st))
    | Some _ => (Raise AttributeError, st)
    | None => (Raise (KeyError "Devices"), st)
    end.

(** [os.popen(command).read()], for the text the environment gives as the
    output of the command. *)
Definition run_popen (env : Env) (command : string) : M string :=
  fun st =>
    (Ok (popen env command), mkState (props st) (popen_log st ++ [command])).

(** ** [set_props] (fwupd.py, lines 41-145) *)

(** Lines 56-66: the scan of [/proc/bootconfig]. [bootloader] and
    [bootloader_serialno] are the local variables of those names. *)
Definition bootconfig_field (marker line : string) (old : option string)
    : option string :=
  if contains marker line then
    match split eq_sign line with
    | [_; v] => Some (strip_char dq (strip v))
    | _ => old
    end
  else old.

Fixpoint scan_bootconfig (ls : list string)
    (bootloader bootloader_serialno : option string)
    : option string * option string :=
  match ls with
  | [] => (bootloader, bootloader_serialno)
  | line :: rest =>
      scan_bootconfig rest
        (bootconfig_field "androidboot.bootloader" line bootloader)
        (bootconfig_field "androidboot.serialno" line bootloader_serialno)
  end.

(** Lines 56-68: the [try] and its handler; the result is the pair of the
    two local variables after the statement. A file of the model is read
    to its end once it is open, so the handler runs for a failing [open]
    only, with both variables still unbound. *)
Definition read_bootconfig (env : Env)
    : result (option string * option string) :=
  match open_read (fs env) "/proc/bootconfig" with
  | Ok text => Ok (scan_bootconfig (lines text) None None)
  | Raise _ =>
      rbind (extract_prop (fs env) "ro.bootloader")
            (fun b => Ok (Some b, None))
  end.

(** Lines 71-80. *)
Definition arr_bootloader (vendor bootloader bootloader_serialno : string)
    : dict :=
  [ ("DeviceId", V_s "1");
    ("Name", V_s bootloader);
    ("Vendor", V_s (if truthy vendor
                    then (capitalize vendor ++ " Bootloader")%string
                    else EmptyString));
    ("Version", V_s "1");
    ("Plugin", V_s "hybris");
    ("Protocol", V_s "hybris");
    ("Flags", V_t 2);
    ("Serial", V_s (if truthy bootloader_serialno
                    then bootloader_serialno else EmptyString)) ].

(** Lines 56-82. *)
Definition bootloader_source (env : Env) (vendor : string) : M unit :=
  vars <- lift (read_bootconfig env) ;;
  bootloader <- lift (read_local "bootloader" (fst vars)) ;;
  if truthy bootloader then
    bootloader_serialno <-
      lift (read_local "bootloader_serialno" (snd vars)) ;;
    append_device (arr_bootloader vendor bootloader bootloader_serialno)
  else ret tt.

(** Lines 88-94: the local variables set by the loop over the modems. *)
Record modem_vars : Type := mkModemVars {
  modem_rev : option string;
  modem_serial : option string;
  modem_ver : option string
}.

Fixpoint lookup (k : string) (properties : list (string * string))
    : option string :=
  match properties with
  | [] => None
  | (k', v) :: rest => if String.eqb k k' then Some v else lookup k rest
  end.

(** [if key in properties: var = properties[key]]. *)
Definition capture (key : string) (properties : list (string * string))
    (old : option string) : option string :=
  match lookup key properties with
  | Some v => Some v
  | None => old
  end.

Fixpoint scan_modems (modems : list modem_entry) (v : modem_vars)
    : result modem_vars :=
  match modems with
  | [] => Ok v
  | Malformed :: _ => Raise ValueError
  | Modem _ properties :: rest =>
      scan_modems rest
        (mkModemVars (capture "Revision" properties (modem_rev v))
                     (capture "Serial" properties (modem_serial v))
                     (capture "SoftwareVersionNumber" properties (modem_ver v)))
  end.

(** Lines 85-87. *)
Definition GetModems (env : Env) : result (list modem_entry) :=
  match ofono_service env with
  | Unavailable => Raise DBusException
  | Modems reply => Ok reply
  end.

(** Lines 84-98: [Some v] when [ofono] ends up [True], with the local
    variables of the loop; [None] when the handler sets it to [False]. *)
Definition telephony_try (env : Env) : option modem_vars :=
  match rbind (GetModems env)
              (fun modems => scan_modems modems (mkModemVars None None None))
  with
  | Ok v => Some v
  | Raise _ => None
  end.

(** Lines 101-110. *)
Definition arr_modem (vendor modem_rev modem_ver modem_serial : string)
    : dict :=
  [ ("DeviceId", V_s "1");
    ("Name", V_s modem_rev);
    ("Vendor", V_s (if truthy vendor
                    then (capitalize vendor ++ " Modem")%string
                    else EmptyString));
    ("Version", V_s (if truthy modem_ver then modem_ver else "1"));
    ("Plugin", V_s "hybris");
    ("Protocol", V_s "hybris");
    ("Flags", V_t 2);
    ("Serial", V_s (if truthy modem_serial
                    then modem_serial else EmptyString)) ].

(** Lines 84-112. *)
Definition modem_source (env : Env) (vendor : string) : M unit :=
  match telephony_try env with
  | Some v =>
      rev <- lift (read_local "modem_rev" (modem_rev v)) ;;
      ver <- lift (read_local "modem_ver" (modem_ver v)) ;;
      serial <- lift (read_local "modem_serial" (modem_serial v)) ;;
      append_device (arr_modem vendor rev ver serial)
  | None => ret tt
  end.

(** Line 114 and the command of line 118. *)
Definition sensor_hal : list string := ["1.0"; "2.0"; "2.1"].

Definition command (version : string) : string :=
  ("binder-call -d /dev/hwbinder android.hardware.sensors@" ++ version
   ++ "::ISensors/default 1 reply i32 " ++ chr dq
   ++ "[ { i32 i32 hstr hstr i32 } ]" ++ chr dq)%string.

(** Lines 117-123: the loop over the versions; the result is [sensor_out]
    after the loop. *)
Fixpoint probe_sensors (env : Env) (versions : list string)
    (sensor_out : string) : M string :=
  match versions with
  | [] => ret sensor_out
  | version :: rest =>
      out <- run_popen env (command version) ;;
      if truthy (strip out) then ret out else probe_sensors env rest out
  end.

(** Line 126: [{ (\d+) \d+ "([^"]+)"H "([^"]+)"H (\d+) }]. *)
Definition not_dq (c : ascii) : bool := negb (Ascii.eqb c dq).

Definition pattern : Re.regex :=
  Re.seq
    [ Re.str "{ "; Re.Group (Re.Plus isdigit);
      Re.str " "; Re.Plus isdigit;
      Re.str " "; Re.Chr dq; Re.Group (Re.Plus not_dq); Re.Chr dq;
      Re.str "H "; Re.Chr dq; Re.Group (Re.Plus not_dq); Re.Chr dq;
      Re.str "H "; Re.Group (Re.Plus isdigit);
      Re.str " }" ].

(** Lines 134-143. *)
Definition arr_sensor (sensor_id sensor_name sensor_vendor sensor_ver : string)
    : dict :=
  [ ("DeviceId", V_s "1");
    ("Name", V_s sensor_name);
    ("Vendor", V_s (if truthy sensor_vendor
                    then sensor_vendor else EmptyString));
    ("Version", V_s (if truthy sensor_ver then sensor_ver else "1"));
    ("Plugin", V_s "hybris");
    ("Protocol", V_s "hybris");
    ("Flags", V_t 2);
    ("Serial", V_s (if truthy sensor_id then sensor_id else EmptyString)) ].

(** Lines 130-145: the loop over the matches. *)
Fixpoint append_sensors (matches : list (list string)) : M unit :=
  match matches with
  | [] => ret tt
  | [sensor_id; sensor_name; sensor_vendor; sensor_ver] :: rest =>
      append_device (arr_sensor sensor_id sensor_name sensor_vendor sensor_ver) ;;;
      append_sensors rest
  | _ :: _ => raise ValueError
  end.

(** Lines 125-145: the sensor parser applied to the captured output. *)
Definition parse_sensors (sensor_out : string) : M unit :=
  if truthy (strip sensor_out) then
    append_sensors (Re.findall pattern sensor_out)
  else ret tt.

(** Lines 114-145. *)
Definition sensor_source (env : Env) : M unit :=
  sensor_out <- probe_sensors env sensor_hal EmptyString ;;
  parse_sensors sensor_out.

(** Lines 48-52. *)
Definition read_machine_id (env : Env) : result string :=
  if path_exists (fs env) "/etc/machine-id"
  then open_read (fs env) "/etc/machine-id"
  else Ok EmptyString.

Definition set_props (env : Env) : M unit :=
  vendor <- lift (extract_prop (fs env) "ro.product.vendor.manufacturer") ;;
  set_prop "HostVendor"
    (V_s (if truthy vendor then upper vendor else EmptyString)) ;;;
  codename <- lift (extract_prop (fs env) "ro.product.vendor.name") ;;
  set_prop "HostProduct"
    (V_s (if truthy codename then upper codename else EmptyString)) ;;;
  machine_id <- lift (read_machine_id env) ;;
  set_prop "HostMachineId" (V_s machine_id) ;;;
  bootloader_source env vendor ;;;
  modem_source env vendor ;;;
  sensor_source env.

(** ** The service object (lines 17-39) and its read accessors *)

Definition init_props : dict :=
  [ ("DaemonVersion", V_s "1.9.12");
    ("HostBkc", V_s "");
    ("HostVendor", V_s "");
    ("HostProduct", V_s "");
    ("HostMachineId", V_s "");
    ("HostSecurityId", V_s "1");
    ("Tainted", V_b false);
    ("Interactive", V_b false);
    ("Status", V_u 1);
    ("Percentage", V_u 0);
    ("BatteryLevel", V_u 101);
    ("OnlyTrusted", V_b true);
    ("Devices", V_aasv []);
    ("Plugins", V_aasv [[("Name", V_s "hybris")]]) ].

(** [FWUPDInterface(loop, bus)]: the outcome of [__init__] and the state
    it leaves. *)
Definition FWUPDInterface (env : Env) : result unit * State :=
  set_props env (mkState init_props []).

(** [self.props[k].value]. *)
Definition prop_value (k : string) (st : State) : result Variant :=
  match dict_get k (props st) with
  | Some v => Ok v
  | None => Raise (KeyError k)
  end.

Definition HostVendor (st : State) : result Variant := prop_value "HostVendor" st.
Definition HostProduct (st : State) : result Variant := prop_value "HostProduct" st.
Definition GetDevices (st : State) : result Variant := prop_value "Devices" st.

(** The devices held by a state. *)
Definition devices (st : State) : list dict :=
  match dict_get "Devices" (props st) with
  | Some (V_aasv l) => l
  | _ => []
  end.

(** ** Vocabulary of the statements *)

(** A text between double quotes. *)
Definition quoted (s : string) : string := (chr dq ++ s ++ chr dq)%string.

Fixpoint all_chars (p : ascii -> bool) (s : string) : bool :=
  match s with
  | EmptyString => true
  | String c s' => p c && all_chars p s'
  end.

Definition not_char (sep c : ascii) : bool := negb (Ascii.eqb c sep).

(** A text of ASCII characters: the texts on which [upper], [lower] and
    [capitalize] are the methods of Python. *)
Definition is_ascii (s : string) : bool :=
  all_chars (fun c => (nat_of_ascii c <? 128)%nat) s.

(** No ['='] in a text. *)
Definition no_eq_sign (s : string) : bool := all_chars (not_char eq_sign) s.

(** An output that is empty once stripped: what lines 121 and 125 test. *)
Definition blank (out : string) : Prop := strip out = EmptyString.

(** The state after some more commands were handed to [os.popen]. *)
Definition logged (st : State) (versions : list string) : State :=
  mkState (props st) (popen_log st ++ map command versions).

(** The state after some more devices were appended. *)
Definition with_devices (st : State) (l : list dict) : State :=
  mkState (dict_set "Devices" (V_aasv l) (props st)) (popen_log st).

(** The fixed shape of a device descriptor: the eight keys in the order of
    the literals of lines 71, 101 and 134, a string under each key but
    [Flags], the two tags ["hybris"] and the flags 2. *)
Definition device_keys : list string :=
  ["DeviceId"; "Name"; "Vendor"; "Version"; "Plugin"; "Protocol"; "Flags";
   "Serial"].

Definition is_string (v : option Variant) : Prop :=
  exists s, v = Some (V_s s).

Definition well_formed (d : dict) : Prop :=
  map fst d = device_keys
  /\ is_string (dict_get "DeviceId" d)
  /\ is_string (dict_get "Name" d)
  /\ is_string (dict_get "Vendor" d)
  /\ is_string (dict_get "Version" d)
  /\ dict_get "Plugin" d = Some (V_s "hybris")
  /\ dict_get "Protocol" d = Some (V_s "hybris")
  /\ dict_get "Flags" d = Some (V_t 2)
  /\ is_string (dict_get "Serial" d).

(** The state holds a device list and every device in it has the fixed
    shape. *)
Definition shaped (st : State) : Prop :=
  exists l, GetDevices st = Ok (V_aasv l) /\ Forall well_formed l.

(** A computation keeps an invariant of the state, whether it returns or
    raises. *)
Definition preserves {A} (P : State -> Prop) (c : M A) : Prop :=
  forall st, P st -> P (snd (c st)).

(** What a pattern can match, as a relation: the text and the groups. *)
Inductive Matches : Re.regex -> string -> list string -> Prop :=
| M_Eps : Matches Re.Eps EmptyString []
| M_Chr c : Matches (Re.Chr c) (chr c) []
| M_Plus cls m :
    m <> EmptyString -> all_chars cls m = true -> Matches (Re.Plus cls) m []
| M_Cat r1 r2 m1 m2 g1 g2 :
    Matches r1 m1 g1 -> Matches r2 m2 g2 ->
    Matches (Re.Cat r1 r2) (m1 ++ m2)%string (g1 ++ g2)
| M_Group r m g : Matches r m g -> Matches (Re.Group r) m (m :: g).

(** The groups of a match of [pattern]: four texts, the last one a
    non-empty run of digits which [arr_sensor] stores as it is. *)
Definition sensor_groups (g : list string) : Prop :=
  exists sensor_id sensor_name sensor_vendor sensor_ver,
    g = [sensor_id; sensor_name; sensor_vendor; sensor_ver]
    /\ sensor_ver <> EmptyString
    /\ all_chars isdigit sensor_ver = true
    /\ dict_get "Version"
         (arr_sensor sensor_id sensor_name sensor_vendor sensor_ver)
       = Some (V_s sensor_ver).

(** The descriptor built from the groups of one match. *)
Definition sensor_of_match (g : list string) : dict :=
  match g with
  | [sensor_id; sensor_name; sensor_vendor; sensor_ver] =>
      [ ("DeviceId", V_s "1");
        ("Name", V_s sensor_name);
        ("Vendor", V_s sensor_vendor);
        ("Version", V_s sensor_ver);
        ("Plugin", V_s "hybris");
        ("Protocol", V_s "hybris");
        ("Flags", V_t 2);
        ("Serial", V_s sensor_id) ]
  | _ => []
  end.

(** The value of [key] in the last record of a reply that carries it. *)
Fixpoint last_with (key : string) (reply : list modem_entry) : option string :=
  match reply with
  | [] => None
  | Modem _ properties :: rest =>
      match last_with key rest with
      | Some v => Some v
      | None => lookup key properties
      end
  | Malformed :: rest => last_with key rest
  end.

(** The newer binding of a variable if there is one, else the older. *)
Definition or_else (o old : option string) : option string :=
  match o with Some v => Some v | None => old end.

Definition is_record (e : modem_entry) : Prop :=
  match e with Modem _ _ => True | Malformed => False end.

(** The modem descriptor in terms of the device vendor and the values
    captured from the reply. *)
Definition modem_device (vendor rev ver serial : string) : dict :=
  [ ("DeviceId", V_s "1");
    ("Name", V_s rev);
    ("Vendor", V_s (match vendor with
                    | EmptyString => EmptyString
                    | _ => (capitalize vendor ++ " Modem")%string
                    end));
    ("Version", V_s (match ver with EmptyString => "1" | _ => ver end));
    ("Plugin", V_s "hybris");
    ("Protocol", V_s "hybris");
    ("Flags", V_t 2);
    ("Serial", V_s serial) ].

(** ** The scenarios of the statements *)

(** No path exists. *)
Definition empty_fs : filesystem := fun _ => None.

(** The end-to-end scenario: a property file at one candidate path, the
    boot configuration, possibly a machine id, no telephony service and
    empty sensor output. *)
Definition e2e_build_prop : string :=
  ("ro.product.vendor.manufacturer=acme" ++ chr nl
   ++ "ro.product.vendor.name=widget" ++ chr nl)%string.

Definition e2e_bootconfig : string :=
  ("androidboot.bootloader = " ++ quoted "abl" ++ chr nl
   ++ "androidboot.serialno = " ++ quoted "123" ++ chr nl)%string.

Definition scenario_fs (build_prop_path build_prop bootconfig : string)
    (machine_id : option string) : filesystem :=
  fun path =>
    if String.eqb path build_prop_path then Some (File build_prop)
    else if String.eqb path "/proc/bootconfig" then Some (File bootconfig)
    else if String.eqb path "/etc/machine-id" then option_map File machine_id
    else None.

Definition no_output : string -> string := fun _ => EmptyString.

(** The same declarations without spaces and quotes. *)
Definition e2e_bootconfig_plain : string :=
  ("androidboot.bootloader=abl" ++ chr nl
   ++ "androidboot.serialno=123" ++ chr nl)%string.

Definition e2e_env (build_prop_path bootconfig : string)
    (machine_id : option string) : Env :=
  mkEnv (scenario_fs build_prop_path e2e_build_prop bootconfig machine_id)
        Unavailable no_output.

Definition e2e_device : dict :=
  [ ("DeviceId", V_s "1");
    ("Name", V_s "abl");
    ("Vendor", V_s "Acme Bootloader");
    ("Version", V_s "1");
    ("Plugin", V_s "hybris");
    ("Protocol", V_s "hybris");
    ("Flags", V_t 2);
    ("Serial", V_s "123") ].

(** A boot configuration with the serial number only. *)
Definition serial_only_bootconfig : string :=
  ("androidboot.serialno = " ++ quoted "123" ++ chr nl)%string.

Definition serial_only_env : Env :=
  mkEnv (scenario_fs "/vendor/build.prop" e2e_build_prop
           serial_only_bootconfig None)
        Unavailable no_output.

(** The end-to-end scenario with a telephony service that answers. *)
Definition telephony_env (reply : list modem_entry) : Env :=
  mkEnv (scenario_fs "/vendor/build.prop" e2e_build_prop e2e_bootconfig None)
        (Modems reply) no_output.

Definition full_modem : modem_entry :=
  Modem "/ril_0"
    [("Revision", "MPSS.1"); ("Serial", "356938035643809");
     ("SoftwareVersionNumber", "07")].

(** The record [{ 3 0 "Accel"H "Bosch"H 2 }]. *)
Definition accel_record : string :=
  ("{ 3 0 " ++ quoted "Accel" ++ "H " ++ quoted "Bosch" ++ "H 2 }")%string.

Definition accel_device : dict :=
  [ ("DeviceId", V_s "1");
    ("Name", V_s "Accel");
    ("Vendor", V_s "Bosch");
    ("Version", V_s "2");
    ("Plugin", V_s "hybris");
    ("Protocol", V_s "hybris");
    ("Flags", V_t 2);
    ("Serial", V_s "3") ].

(** Sensor outputs by version: every other command prints nothing. *)
Definition outputs (o10 o20 o21 : string) : string -> string :=
  fun c =>
    if String.eqb c (command "1.0") then o10
    else if String.eqb c (command "2.0") then o20
    else if String.eqb c (command "2.1") then o21
    else EmptyString.

Definition sensor_env (o10 o20 o21 : string) : Env :=
  mkEnv empty_fs Unavailable (outputs o10 o20 o21).

(** A property file whose only line is [key=a=b]. *)
Definition two_eq_fs : filesystem :=
  scenario_fs "/vendor/build.prop" ("key=a=b" ++ chr nl)%string
    EmptyString None.

(** ** The remaining read accessors (lines 147-201) *)

Definition DaemonVersion (st : State) : result Variant := prop_value "DaemonVersion" st.
Definition HostBkc (st : State) : result Variant := prop_value "HostBkc" st.
Definition HostMachineId (st : State) : result Variant := prop_value "HostMachineId" st.
Definition HostSecurityId (st : State) : result Variant := prop_value "HostSecurityId" st.
Definition Tainted (st : State) : result Variant := prop_value "Tainted" st.
Definition Interactive (st : State) : result Variant := prop_value "Interactive" st.
Definition Status (st : State) : result Variant := prop_value "Status" st.
Definition Percentage (st : State) : result Variant := prop_value "Percentage" st.
Definition BatteryLevel (st : State) : result Variant := prop_value "BatteryLevel" st.
Definition OnlyTrusted (st : State) : result Variant := prop_value "OnlyTrusted" st.
Definition GetPlugins (st : State) : result Variant := prop_value "Plugins" st.

(** ** Further vocabulary *)

(** A non-empty text all of whose characters are in a class: what [X+]
    matches. *)
Definition run_of (cls : ascii -> bool) (s : string) : bool :=
  truthy s && all_chars cls s.

(** A sensor record of the output of [binder-call] and its text
    [{ id type "name"H "vendor"H version }]. *)
Record sensor_record : Type := mkSensor {
  s_id : string;
  s_type : string;
  s_name : string;
  s_vendor : string;
  s_ver : string
}.

Definition render (r : sensor_record) : string :=
  ("{ " ++ s_id r ++ " " ++ s_type r ++ " " ++ chr dq ++ s_name r ++ chr dq
   ++ "H " ++ chr dq ++ s_vendor r ++ chr dq ++ "H " ++ s_ver r ++ " }")%string.

Definition record_ok (r : sensor_record) : bool :=
  run_of isdigit (s_id r) && run_of isdigit (s_type r)
  && run_of not_dq (s_name r) && run_of not_dq (s_vendor r)
  && run_of isdigit (s_ver r).

Definition groups_of (r : sensor_record) : list string :=
  [s_id r; s_name r; s_vendor r; s_ver r].

Definition open_brace : ascii := "{"%char.

(** A text without an opening brace. *)
Definition braceless (s : string) : bool := all_chars (not_char open_brace) s.

(** Records, each after some text, and the text after the last one. *)
Fixpoint render_stream (items : list (string * sensor_record))
    (trailing : string) : string :=
  match items with
  | [] => trailing
  | (noise, r) :: rest =>
      (noise ++ render r ++ render_stream rest trailing)%string
  end.

(** No newline but possibly as the last character. *)
Fixpoint nl_at_end_only (s : string) : bool :=
  match s with
  | EmptyString => true
  | String c s' =>
      match s' with
      | EmptyString => true
      | _ => not_char nl c && nl_at_end_only s'
      end
  end.

(** A property value as the reader hands it out: no ['='], no newline, no
    white space at either end. *)
Definition clean_value (v : string) : Prop :=
  no_eq_sign v = true /\ all_chars (not_char nl) v = true /\ strip v = v.

(** The bootloader descriptor in terms of the device vendor and the two
    values read from the boot configuration. *)
Definition bootloader_device (vendor name serial : string) : dict :=
  [ ("DeviceId", V_s "1");
    ("Name", V_s name);
    ("Vendor", V_s (match vendor with
                    | EmptyString => EmptyString
                    | _ => (capitalize vendor ++ " Bootloader")%string
                    end));
    ("Version", V_s "1");
    ("Plugin", V_s "hybris");
    ("Protocol", V_s "hybris");
    ("Flags", V_t 2);
    ("Serial", V_s serial) ].

(** The value a boot-configuration line [key = "value"] carries. *)
Definition bootconfig_value (v : string) : string := strip_char dq (strip v).

(** A line of the boot configuration that sets the variable of [marker]:
    it contains the marker and has exactly one ['=']. *)
Definition sets_field (marker line v : string) : Prop :=
  contains marker line = true
  /\ exists k, line = (k ++ chr eq_sign ++ v)%string
       /\ no_eq_sign k = true /\ no_eq_sign v = true.

(** The id and the version of a descriptor: the id is ["1"], the version
    is a non-empty text. *)
Definition id_and_version (d : dict) : Prop :=
  dict_get "DeviceId" d = Some (V_s "1")
  /\ exists v, dict_get "Version" d = Some (V_s v) /\ v <> EmptyString.

(** The state holds a device list that extends [l]. *)
Definition extends (l : list dict) (st : State) : Prop :=
  exists more, GetDevices st = Ok (V_aasv (l ++ more)).

(** The state holds the value [v] under the key [k]. *)
Definition holds (k : string) (v : Variant) (st : State) : Prop :=
  dict_get k (props st) = Some v.

(** The keys [set_props] assigns or appends to. *)
Definition assigned_keys : list string :=
  ["HostVendor"; "HostProduct"; "HostMachineId"; "Devices"].

(** Further scenarios. *)
Definition unreadable_fs : filesystem :=
  fun path =>
    if String.eqb path "/vendor/build.prop" then Some Unreadable else None.

(** A property file whose only line is the bare key. *)
Definition bare_key_fs : filesystem :=
  scenario_fs "/vendor/build.prop" ("key" ++ chr nl)%string EmptyString None.

(** The same first candidate as [two_eq_fs], and a later candidate too. *)
Definition shadowed_fs : filesystem :=
  fun path =>
    if String.eqb path "/odm/etc/build.prop"
    then Some (File ("other=1" ++ chr nl)%string)
    else two_eq_fs path.

Definition accel : sensor_record := mkSensor "3" "0" "Accel" "Bosch" "2".
Definition gyro : sensor_record := mkSensor "12" "4" "Gyro x" "ST" "17".

(** No boot configuration, and a property file that names the
    bootloader. *)
Definition fallback_env : Env :=
  mkEnv (fun path =>
           if String.eqb path "/vendor/build.prop"
           then Some (File (e2e_build_prop ++ "ro.bootloader=abl" ++ chr nl))
           else None)
        Unavailable no_output.

(** A boot configuration with the bootloader name only. *)
Definition name_only_bootconfig : string :=
  ("androidboot.bootloader = " ++ quoted "abl" ++ chr nl)%string.

Definition name_only_env : Env :=
  mkEnv (scenario_fs "/vendor/build.prop" e2e_build_prop
           name_only_bootconfig None)
        Unavailable no_output.

(** The state holds a device list and every device in it satisfies [Q]. *)
Definition all_devices (Q : dict -> Prop) (st : State) : Prop :=
  exists l, GetDevices st = Ok (V_aasv l) /\ Forall Q l.

(** A state that already holds one device. *)
Definition one_device_state : State :=
  with_devices (mkState init_props []) [accel_device].

(** The output the probe settles on: the first one that is not blank, or
    the last one. *)
Definition chosen_output (o10 o20 o21 : string) : string :=
  if truthy (strip o10) then o10
  else if truthy (strip o20) then o20
  else o21.

(** The end-to-end files with a telephony service that reports one modem
    with its three fields, and arbitrary sensor outputs. *)
Definition full_env (path rev serial ver o10 o20 o21 : string) : Env :=
  mkEnv (scenario_fs "/vendor/build.prop" e2e_build_prop e2e_bootconfig None)
        (Modems [Modem path [("Revision", rev); ("Serial", serial);
                             ("SoftwareVersionNumber", ver)]])
        (outputs o10 o20 o21).

(** * Properties *)

(** ** Strings *)

Section SplitFacts.

Variable sep : ascii.

Lemma split_nonempty (s : string) : split sep s <> [].
Proof.
  induction s as [|c s IH]; simpl; [discriminate|].
  destruct (Ascii.eqb c sep); [discriminate|].
  destruct (split sep s); discriminate.
Qed.

Lemma split_without_sep (a : string) :
  all_chars (not_char sep) a = true -> split sep a = [a].
Proof.
  induction a as [|c a IH]; simpl; intros H; [reflexivity|].
  apply andb_prop in H as [Hc Ha]. unfold not_char in Hc.
  apply negb_true_iff in Hc. rewrite Hc, (IH Ha). reflexivity.
Qed.

Lemma split_at_first_sep (a rest : string) :
  all_chars (not_char sep) a = true ->
  split sep (a ++ String sep rest) = a :: split sep rest.
Proof.
  induction a as [|c a IH]; simpl; intros H.
  - rewrite Ascii.eqb_refl. reflexivity.
  - apply andb_prop in H as [Hc Ha]. unfold not_char in Hc.
    apply negb_true_iff in Hc. rewrite Hc, (IH Ha). reflexivity.
Qed.

End SplitFacts.

(** The second field of a line cut at ['=']: the text between the first
    ['='] and the next one, or the end of the line. *)
Lemma second_field (a b line : string) :
  no_eq_sign a = true -> no_eq_sign b = true ->
  (line = (a ++ chr eq_sign ++ b)%string
   \/ exists c, line = (a ++ chr eq_sign ++ b ++ chr eq_sign ++ c)%string) ->
  nth_error (split eq_sign line) 1 = Some b.
Proof.
  intros Ha Hb [-> | [c ->]]; unfold chr; simpl String.append;
    rewrite (split_at_first_sep _ _ _ Ha); simpl.
  - rewrite (split_without_sep _ _ Hb). reflexivity.
  - rewrite (split_at_first_sep _ _ _ Hb). reflexivity.
Qed.

Lemma append_assoc (a b c : string) :
  ((a ++ b) ++ c = a ++ (b ++ c))%string.
Proof. induction a as [|x a IH]; simpl; [|rewrite IH]; reflexivity. Qed.

Lemma truthy_id (s : string) :
  (if truthy s then s else EmptyString) = s.
Proof. destruct s; reflexivity. Qed.

(** ** Dictionaries *)

Lemma dict_get_set_same (k : string) (v : Variant) (d : dict) :
  dict_get k (dict_set k v d) = Some v.
Proof.
  induction d as [|[k' v'] d IH]; simpl.
  - rewrite String.eqb_refl. reflexivity.
  - destruct (String.eqb k k') eqn:E; simpl.
    + rewrite String.eqb_refl. reflexivity.
    + rewrite E. exact IH.
Qed.

Lemma dict_get_set_other (k k' : string) (v : Variant) (d : dict) :
  k <> k' -> dict_get k' (dict_set k v d) = dict_get k' d.
Proof.
  intros Hk. induction d as [|[k0 v0] d IH]; simpl.
  - destruct (String.eqb_spec k' k); [congruence | reflexivity].
  - destruct (String.eqb_spec k k0) as [-> | Hk0]; simpl.
    + destruct (String.eqb_spec k' k0); [congruence | reflexivity].
    + rewrite IH. reflexivity.
Qed.

Lemma dict_set_set (k : string) (v1 v2 : Variant) (d : dict) :
  dict_set k v2 (dict_set k v1 d) = dict_set k v2 d.
Proof.
  induction d as [|[k' v'] d IH]; simpl.
  - rewrite String.eqb_refl. reflexivity.
  - destruct (String.eqb k k') eqn:E; simpl.
    + rewrite String.eqb_refl. reflexivity.
    + rewrite E, IH. reflexivity.
Qed.

(** ** [extract_prop] *)

Lemma last_after_cons {A} (x : A) (l : list A) (d : A) :
  last (x :: l) d = last l x.
Proof.
  revert x d. induction l as [|y l IH]; intros x d; [reflexivity|].
  change (last (x :: y :: l) d) with (last (y :: l) d).
  rewrite (IH y d). symmetry. apply (IH y x).
Qed.

Lemma select_file_none (fs : filesystem) (files : list string)
    (file : option string) :
  (forall p, In p files -> fs p = None) ->
  select_file fs files file = last (map Some files) file.
Proof.
  revert file. induction files as [|f rest IH]; intros file H; [reflexivity|].
  cbn [select_file]. unfold path_exists. rewrite (H f (or_introl eq_refl)).
  rewrite IH by (intros p Hp; apply H; right; exact Hp).
  symmetry. apply (last_after_cons (Some f) (map Some rest) file).
Qed.

Lemma select_file_first (fs : filesystem) (earlier later : list string)
    (file : string) (cur : option string) :
  (forall p, In p earlier -> fs p = None) ->
  fs file <> None ->
  select_file fs (earlier ++ file :: later) cur = Some file.
Proof.
  revert cur. induction earlier as [|f rest IH]; intros cur H Hfile.
  - simpl. unfold path_exists. destruct (fs file); [reflexivity|congruence].
  - simpl. unfold path_exists. rewrite (H f (or_introl eq_refl)).
    apply IH; [|exact Hfile]. intros p Hp. apply H. right. exact Hp.
Qed.

Lemma scan_prop_lines_first (prop line : string) (before after : list string) :
  (forall l, In l before -> startswith l prop = false) ->
  startswith line prop = true ->
  scan_prop_lines prop (before ++ line :: after)
  = match nth_error (split eq_sign line) 1 with
    | Some v => Ok (strip v)
    | None => Raise IndexError
    end.
Proof.
  intros Hb Hl. induction before as [|l rest IH]; simpl.
  - rewrite Hl. reflexivity.
  - rewrite (Hb l (or_introl eq_refl)). apply IH.
    intros l' Hl'. apply Hb. right. exact Hl'.
Qed.

(** The other outcomes of the reader once a candidate path exists: the
    empty string when no line starts with the key, [OSError] when the file
    cannot be opened, [IndexError] when the deciding line has no ['=']. *)
Lemma scan_prop_lines_absent (prop : string) (ls : list string) :
  (forall l, In l ls -> startswith l prop = false) ->
  scan_prop_lines prop ls = Ok EmptyString.
Proof.
  induction ls as [|l rest IH]; intros H; [reflexivity|]. simpl.
  rewrite (H l (or_introl eq_refl)). apply IH.
  intros l' Hl'. apply H. right. exact Hl'.
Qed.

(** X1: when the first existing candidate file is readable and none of
    its lines starts with the key, the reader returns the empty string. *)
Lemma extract_prop_key_absent (fs : filesystem) (prop file text : string)
    (earlier later : list string) :
  prop_files = earlier ++ file :: later ->
  (forall p, In p earlier -> fs p = None) ->
  fs file = Some (File text) ->
  (forall l, In l (lines text) -> startswith l prop = false) ->
  extract_prop fs prop = Ok EmptyString.
Proof.
  intros Hfiles Hearlier Hfile Hlines. unfold extract_prop. rewrite Hfiles.
  rewrite (select_file_first fs earlier later file None Hearlier)
    by (rewrite Hfile; discriminate).
  unfold open_read. rewrite Hfile. cbn [rbind].
  apply scan_prop_lines_absent, Hlines.
Qed.

(** X2: when the first existing candidate path cannot be opened, the
    reader raises that [OSError]; it has no handler and does not go on to a
    later candidate. *)
Lemma extract_prop_unreadable (fs : filesystem) (prop file : string)
    (earlier later : list string) :
  prop_files = earlier ++ file :: later ->
  (forall p, In p earlier -> fs p = None) ->
  fs file = Some Unreadable ->
  extract_prop fs prop = Raise (OSError file).
Proof.
  intros Hfiles Hearlier Hfile. unfold extract_prop. rewrite Hfiles.
  rewrite (select_file_first fs earlier later file None Hearlier)
    by (rewrite Hfile; discriminate).
  unfold open_read. rewrite Hfile. reflexivity.
Qed.

(** X3: when the first line that starts with the key has no ['='], the
    reader raises [IndexError]; later lines are not looked at. *)
Lemma extract_prop_line_without_eq (fs : filesystem)
    (prop file text : string) (earlier later : list string)
    (line : string) (before after : list string) :
  prop_files = earlier ++ file :: later ->
  (forall p, In p earlier -> fs p = None) ->
  fs file = Some (File text) ->
  lines text = before ++ line :: after ->
  (forall l, In l before -> startswith l prop = false) ->
  startswith line prop = true ->
  no_eq_sign line = true ->
  extract_prop fs prop = Raise IndexError.
Proof.
  intros Hfiles Hearlier Hfile Hlines Hbefore Hline Hno.
  unfold extract_prop. rewrite Hfiles.
  rewrite (select_file_first fs earlier later file None Hearlier)
    by (rewrite Hfile; discriminate).
  unfold open_read. rewrite Hfile. cbn [rbind].
  rewrite Hlines, (scan_prop_lines_first prop line before after Hbefore Hline).
  rewrite (split_without_sep eq_sign line Hno). reflexivity.
Qed.

(** C1 (the code at the inputs of the claim): when none of the candidate
    paths exists, [extract_prop] does not return the empty string: for
    every key it raises [FileNotFoundError], from opening the last
    candidate path. *)
Theorem extract_prop_without_candidate_raises
    (fs : filesystem) (prop : string) :
  (forall p, In p prop_files -> fs p = None) ->
  extract_prop fs prop
  = Raise (FileNotFoundError "/vendor/odm_dlkm/etc/build.prop").
Proof.
  intros H. unfold extract_prop.
  rewrite (select_file_none fs prop_files None H). cbn [prop_files map last].
  unfold open_read. rewrite H by (simpl; tauto). reflexivity.
Qed.

Lemma extract_prop_without_candidate_raises_witness :
  (forall p, In p prop_files -> empty_fs p = None)
  /\ extract_prop empty_fs "ro.product.vendor.manufacturer"
     = Raise (FileNotFoundError "/vendor/odm_dlkm/etc/build.prop").
Proof.
  split.
  - intros p _. reflexivity.
  - apply (extract_prop_without_candidate_raises empty_fs).
    intros p _. reflexivity.
Defined.

(** C9 (as stated, refuted): for the line [key=a=b] the reader returns
    ["a"], not the remainder ["a=b"] after the first ['=']. *)
Lemma extract_prop_two_eq_counterexample :
  extract_prop two_eq_fs "key" = Ok "a"
  /\ extract_prop two_eq_fs "key" <> Ok "a=b".
Proof.
  assert (E : extract_prop two_eq_fs "key" = Ok "a") by (vm_compute; reflexivity).
  split; [exact E|]. rewrite E. discriminate.
Qed.

(** C9 (amended): when the first existing candidate path is a readable
    file, the reader returns, for the first line that starts with the key,
    the stripped text between the first ['='] of that line and its next
    ['='] or its end. *)
Theorem extract_prop_returns_second_field
    (fs : filesystem) (prop file text : string)
    (earlier later : list string)
    (line : string) (before after : list string) (a b : string) :
  prop_files = earlier ++ file :: later ->
  (forall p, In p earlier -> fs p = None) ->
  fs file = Some (File text) ->
  lines text = before ++ line :: after ->
  (forall l, In l before -> startswith l prop = false) ->
  startswith line prop = true ->
  no_eq_sign a = true -> no_eq_sign b = true ->
  (line = (a ++ chr eq_sign ++ b)%string
   \/ exists c, line = (a ++ chr eq_sign ++ b ++ chr eq_sign ++ c)%string) ->
  extract_prop fs prop = Ok (strip b).
Proof.
  intros Hfiles Hearlier Hfile Hlines Hbefore Hline Ha Hb Hshape.
  unfold extract_prop. rewrite Hfiles.
  rewrite (select_file_first fs earlier later file None Hearlier)
    by (rewrite Hfile; discriminate).
  unfold open_read. rewrite Hfile. cbn [rbind].
  rewrite Hlines, (scan_prop_lines_first prop line before after Hbefore Hline).
  rewrite (second_field a b line Ha Hb Hshape). reflexivity.
Qed.

Lemma extract_prop_returns_second_field_witness :
  extract_prop two_eq_fs "key" = Ok (strip "a").
Proof.
  apply (extract_prop_returns_second_field two_eq_fs "key"
           "/vendor/build.prop" ("key=a=b" ++ chr nl)%string
           ["/var/lib/lxc/android/rootfs/vendor/build.prop";
            "/android/vendor/build.prop"]
           ["/var/lib/lxc/android/rootfs/odm/etc/build.prop";
            "/android/odm/etc/build.prop"; "/odm/etc/build.prop";
            "/vendor/odm_dlkm/etc/build.prop"]
           ("key=a=b" ++ chr nl)%string [] [] "key" "a");
    try reflexivity.
  - intros p [<- | [<- | []]]; reflexivity.
  - intros l [].
  - right. exists ("b" ++ chr nl)%string. reflexivity.
Defined.

(** ** The bootloader source *)

Lemma scan_bootconfig_keeps_unbound (ls : list string)
    (bootloader bootloader_serialno : option string) :
  (forall line, In line ls ->
     contains "androidboot.bootloader" line = false) ->
  fst (scan_bootconfig ls bootloader bootloader_serialno) = bootloader.
Proof.
  revert bootloader bootloader_serialno.
  induction ls as [|line rest IH]; intros bl sn H; [reflexivity|].
  cbn [scan_bootconfig]. rewrite IH by (intros l Hl; apply H; right; exact Hl).
  unfold bootconfig_field. rewrite (H line (or_introl eq_refl)). reflexivity.
Qed.

(** C3 (the code at the inputs of the claim): for a readable boot
    configuration none of whose lines carries the bootloader-name marker,
    the bootloader device is not suppressed by the test of line 70: the
    test itself raises [UnboundLocalError] for [bootloader], and the state
    is left as it was. *)
Theorem bootloader_source_without_name_raises
    (env : Env) (vendor : string) (st : State) (text : string) :
  fs env "/proc/bootconfig" = Some (File text) ->
  (forall line, In line (lines text) ->
     contains "androidboot.bootloader" line = false) ->
  bootloader_source env vendor st
  = (Raise (UnboundLocalError "bootloader"), st).
Proof.
  intros Hfile Hlines.
  unfold bootloader_source, bind, lift, read_bootconfig, open_read.
  rewrite Hfile.
  pose proof (scan_bootconfig_keeps_unbound (lines text) None None Hlines) as E.
  destruct (scan_bootconfig (lines text) None None) as [bl sn].
  simpl in E. subst bl. reflexivity.
Qed.

Lemma bootloader_source_without_name_raises_witness :
  contains "androidboot.serialno" serial_only_bootconfig = true
  /\ bootloader_source serial_only_env "acme" (mkState init_props [])
     = (Raise (UnboundLocalError "bootloader"), mkState init_props []).
Proof.
  split; [reflexivity|].
  apply (bootloader_source_without_name_raises serial_only_env "acme"
           (mkState init_props []) serial_only_bootconfig).
  - reflexivity.
  - intros line [<- | []]. reflexivity.
Defined.

(** The whole start-up in that scenario: it aborts before any device is
    appended and before the modem and sensor sources run. *)
Lemma serial_only_startup_aborts :
  fst (FWUPDInterface serial_only_env) = Raise (UnboundLocalError "bootloader")
  /\ devices (snd (FWUPDInterface serial_only_env)) = []
  /\ popen_log (snd (FWUPDInterface serial_only_env)) = [].
Proof. vm_compute. repeat split. Qed.

(** A name that is found but empty does suppress the device. *)
Lemma bootloader_source_empty_name (env : Env) (vendor : string) (st : State)
    (text : string) (serialno : option string) :
  fs env "/proc/bootconfig" = Some (File text) ->
  scan_bootconfig (lines text) None None = (Some EmptyString, serialno) ->
  bootloader_source env vendor st = (Ok tt, st).
Proof.
  intros Hfile Hscan.
  unfold bootloader_source, bind, lift, read_bootconfig, open_read.
  rewrite Hfile, Hscan. reflexivity.
Qed.

(** A name without a serial number: the descriptor of line 71 cannot be
    built. *)
Lemma bootloader_source_without_serial (env : Env) (vendor : string)
    (st : State) (text name : string) :
  fs env "/proc/bootconfig" = Some (File text) ->
  scan_bootconfig (lines text) None None = (Some name, None) ->
  name <> EmptyString ->
  bootloader_source env vendor st
  = (Raise (UnboundLocalError "bootloader_serialno"), st).
Proof.
  intros Hfile Hscan Hname.
  unfold bootloader_source, bind, lift, read_bootconfig, open_read.
  rewrite Hfile, Hscan. destruct name; [contradiction Hname|]; reflexivity.
Qed.

(** ** The modem source *)

(** Failures inside the [try] of lines 84-98 are caught: nothing is
    contributed and nothing is raised. *)
Lemma modem_source_unavailable (env : Env) (vendor : string) (st : State) :
  ofono_service env = Unavailable ->
  modem_source env vendor st = (Ok tt, st).
Proof.
  intros H. unfold modem_source, telephony_try, GetModems. rewrite H.
  reflexivity.
Qed.

Lemma scan_modems_malformed (reply : list modem_entry) (v : modem_vars) :
  In Malformed reply -> exists e, scan_modems reply v = Raise e.
Proof.
  revert v. induction reply as [|[path properties|] rest IH]; intros v H.
  - destruct H.
  - destruct H as [H | H]; [discriminate|]. cbn [scan_modems]. apply IH, H.
  - exists ValueError. reflexivity.
Qed.

(** X13: a reply with an entry that does not unpack is discarded as a
    whole by the handler: nothing is appended and nothing is raised, even
    when other entries are complete records. *)
Lemma modem_source_malformed (env : Env) (vendor : string) (st : State)
    (reply : list modem_entry) :
  ofono_service env = Modems reply -> In Malformed reply ->
  modem_source env vendor st = (Ok tt, st).
Proof.
  intros H Hin. unfold modem_source, telephony_try, GetModems. rewrite H.
  cbn [rbind].
  destruct (scan_modems_malformed reply (mkModemVars None None None) Hin)
    as [e ->].
  reflexivity.
Qed.

(** C4 (the code at a failing input): a reply to [GetModems] with no
    record, or with a record that carries no field, is not treated as "no
    modem": [ofono] is set, the descriptor of line 101 reads the unbound
    [modem_rev] and [UnboundLocalError] leaves [set_props]; in the
    end-to-end scenario with such a reply the sensor source never runs. *)
Theorem modem_source_empty_reply_raises :
  (forall (files : filesystem) (out : string -> string) (vendor : string)
          (st : State),
      modem_source (mkEnv files (Modems []) out) vendor st
      = (Raise (UnboundLocalError "modem_rev"), st))
  /\ (forall (files : filesystem) (out : string -> string)
             (vendor path : string) (st : State),
         modem_source (mkEnv files (Modems [Modem path []]) out) vendor st
         = (Raise (UnboundLocalError "modem_rev"), st))
  /\ fst (FWUPDInterface (telephony_env []))
     = Raise (UnboundLocalError "modem_rev")
  /\ devices (snd (FWUPDInterface (telephony_env []))) = [e2e_device]
  /\ popen_log (snd (FWUPDInterface (telephony_env []))) = [].
Proof.
  split; [|split; [|split; [|split]]].
  - intros. reflexivity.
  - intros. reflexivity.
  - vm_compute. reflexivity.
  - vm_compute. reflexivity.
  - vm_compute. reflexivity.
Qed.

Lemma scan_modems_last_with (reply : list modem_entry) (v : modem_vars) :
  Forall is_record reply ->
  scan_modems reply v
  = Ok (mkModemVars
          (or_else (last_with "Revision" reply) (modem_rev v))
          (or_else (last_with "Serial" reply) (modem_serial v))
          (or_else (last_with "SoftwareVersionNumber" reply) (modem_ver v))).
Proof.
  intros H. revert v.
  induction H as [|[path properties|] rest Hrec _ IH]; intros v.
  - destruct v; reflexivity.
  - cbn [scan_modems last_with]. rewrite IH. cbn [modem_rev modem_serial modem_ver].
    unfold capture.
    destruct (last_with "Revision" rest), (last_with "Serial" rest),
      (last_with "SoftwareVersionNumber" rest),
      (lookup "Revision" properties), (lookup "Serial" properties),
      (lookup "SoftwareVersionNumber" properties); reflexivity.
  - destruct Hrec.
Qed.

Lemma arr_modem_as_stated (vendor rev ver serial : string) :
  arr_modem vendor rev ver serial = modem_device vendor rev ver serial.
Proof. destruct vendor, ver, serial; reflexivity. Qed.

(** C5 (as stated, refuted): with the device vendor ["acme"] and one
    complete modem record the vendor field is ["Acme Modem"], not the
    vendor string followed by [" Modem"]; and with one record that lacks
    fields a record was returned and no modem device is emitted. *)
Lemma modem_source_counterexample :
  (let st := snd (modem_source (telephony_env [full_modem]) "acme"
                    (mkState init_props [])) in
   exists d, devices st = [d]
     /\ dict_get "Vendor" d = Some (V_s "Acme Modem")
     /\ dict_get "Vendor" d <> Some (V_s ("acme" ++ " Modem")))
  /\ (let r := modem_source
                 (telephony_env [Modem "/ril_0" [("Revision", "MPSS.1")]])
                 "acme" (mkState init_props []) in
      fst r = Raise (UnboundLocalError "modem_ver")
      /\ devices (snd r) = []).
Proof.
  split.
  - eexists. split; [vm_compute; reflexivity|].
    split; [reflexivity|]. simpl. discriminate.
  - vm_compute. split; reflexivity.
Qed.

(** C5 (amended): when the telephony query succeeds and each of the fields
    Revision, Serial and SoftwareVersionNumber occurs in some returned
    record, exactly one modem device is appended; its name, serial and
    version are taken, field by field, from the last record that carries
    the field (the version is ["1"] when that value is empty), and its
    vendor is the capitalised device vendor followed by [" Modem"], or
    empty when the device vendor is empty. The device vendor is an ASCII
    text. *)
Theorem modem_source_emits_last_fields
    (env : Env) (vendor : string) (st : State) (reply : list modem_entry)
    (l : list dict) (rev serial ver : string) :
  is_ascii vendor = true ->
  ofono_service env = Modems reply ->
  Forall is_record reply ->
  last_with "Revision" reply = Some rev ->
  last_with "Serial" reply = Some serial ->
  last_with "SoftwareVersionNumber" reply = Some ver ->
  dict_get "Devices" (props st) = Some (V_aasv l) ->
  modem_source env vendor st
  = (Ok tt, with_devices st (l ++ [modem_device vendor rev ver serial])).
Proof.
  intros _ Hsvc Hrec Hrev Hserial Hver Hdev.
  unfold modem_source, telephony_try, GetModems. rewrite Hsvc. cbn [rbind].
  rewrite (scan_modems_last_with reply _ Hrec), Hrev, Hserial, Hver.
  cbn [or_else modem_rev modem_serial modem_ver].
  unfold bind, lift, read_local, append_device. rewrite Hdev.
  rewrite arr_modem_as_stated. reflexivity.
Qed.

Lemma modem_source_emits_last_fields_witness :
  modem_source
    (telephony_env [full_modem; Modem "/ril_1" [("Revision", "MPSS.2")]])
    "acme" (mkState init_props [])
  = (Ok tt,
     with_devices (mkState init_props [])
       ([] ++ [modem_device "acme" "MPSS.2" "07" "356938035643809"])).
Proof.
  apply (modem_source_emits_last_fields
           (telephony_env [full_modem; Modem "/ril_1" [("Revision", "MPSS.2")]])
           "acme" (mkState init_props [])
           [full_modem; Modem "/ril_1" [("Revision", "MPSS.2")]]
           [] "MPSS.2" "356938035643809" "07"); try reflexivity.
  repeat constructor.
Defined.

(** ** The sensor pattern *)

Lemma plus_ways_sound (cls : ascii -> bool) (s m rest : string) :
  In (m, rest) (Re.plus_ways cls s) ->
  m <> EmptyString /\ all_chars cls m = true /\ s = (m ++ rest)%string.
Proof.
  revert m rest. induction s as [|c s IH]; intros m rest H; [destruct H|].
  cbn [Re.plus_ways] in H. destruct (cls c) eqn:Hc; [|destruct H].
  apply in_app_or in H as [H | [H | []]].
  - apply in_map_iff in H as [[m' rest'] [E H]]. simpl in E.
    injection E as <- <-. destruct (IH m' rest' H) as (_ & Hall & ->).
    repeat split; [discriminate|]. simpl. rewrite Hc. exact Hall.
  - injection H as <- <-. repeat split; [discriminate|].
    simpl. rewrite Hc. reflexivity.
Qed.

Lemma ways_sound (r : Re.regex) :
  forall s m rest g,
    In (m, rest, g) (Re.ways r s) ->
    Matches r m g /\ s = (m ++ rest)%string.
Proof.
  induction r as [|c|cls|r1 IH1 r2 IH2|r IH]; intros s m rest g H;
    cbn [Re.ways] in H.
  - destruct H as [H | []]. injection H as <- <- <-. split; constructor.
  - destruct s as [|a s]; [destruct H|].
    destruct (Ascii.eqb_spec a c) as [-> | _]; [|destruct H].
    destruct H as [H | []]. injection H as <- <- <-. split; constructor.
  - apply in_map_iff in H as [[m' rest'] [E H]]. simpl in E.
    injection E as <- <- <-.
    destruct (plus_ways_sound cls s m' rest' H) as (Hne & Hall & ->).
    split; [constructor; assumption | reflexivity].
  - apply in_flat_map in H as [[[m1 s1] g1] [H1 H]].
    apply in_map_iff in H as [[[m2 s2] g2] [E H2]].
    injection E as <- <- <-.
    destruct (IH1 _ _ _ _ H1) as [M1 ->].
    destruct (IH2 _ _ _ _ H2) as [M2 ->].
    split; [constructor; assumption|].
    symmetry. apply append_assoc.
  - apply in_map_iff in H as [[[m' s'] g'] [E H]].
    injection E as <- <- <-.
    destruct (IH _ _ _ _ H) as [M ->].
    split; [constructor; assumption | reflexivity].
Qed.

Lemma match_here_sound (r : Re.regex) (s m rest : string) (g : list string) :
  Re.match_here r s = Some (m, rest, g) ->
  Matches r m g /\ s = (m ++ rest)%string.
Proof.
  unfold Re.match_here. intros H. apply (ways_sound r s).
  destruct (Re.ways r s) as [|w ws]; [discriminate|].
  injection H as ->. left. reflexivity.
Qed.

Ltac invert_matches :=
  repeat match goal with
         | H : Matches (Re.Cat _ _) _ _ |- _ => inversion H; subst; clear H
         | H : Matches (Re.Group _) _ _ |- _ => inversion H; subst; clear H
         | H : Matches (Re.Chr _) _ _ |- _ => inversion H; subst; clear H
         | H : Matches (Re.Plus _) _ _ |- _ => inversion H; subst; clear H
         | H : Matches Re.Eps _ _ |- _ => inversion H; subst; clear H
         end.

Lemma pattern_groups (m : string) (g : list string) :
  Matches pattern m g -> sensor_groups g.
Proof.
  unfold pattern. cbn [Re.seq Re.str]. intros H. invert_matches.
  cbn [app]. unfold sensor_groups.
  match goal with
  | |- exists a b c d, [?x; ?y; ?z; ?w] = _ /\ _ =>
      exists x, y, z, w
  end.
  repeat split; try assumption.
  match goal with
  | Hne : ?w <> EmptyString |- dict_get _ (arr_sensor _ _ _ ?w) = _ =>
      destruct w; [contradiction Hne; reflexivity | reflexivity]
  end.
Qed.

Lemma findall_from_Forall (P : list string -> Prop) (r : Re.regex) :
  (forall s m rest g, Re.match_here r s = Some (m, rest, g) -> P g) ->
  forall s skip, Forall P (Re.findall_from r skip s).
Proof.
  intros HP. induction s as [|c s IH]; intros skip; cbn [Re.findall_from].
  - constructor.
  - destruct skip as [|n]; [|apply IH].
    destruct (Re.match_here r (String c s)) as [[[m rest] g]|] eqn:E.
    + constructor; [exact (HP _ _ _ _ E) | apply IH].
    + apply IH.
Qed.

Lemma match_here_sensor_groups (s m rest : string) (g : list string) :
  Re.match_here pattern s = Some (m, rest, g) -> sensor_groups g.
Proof.
  intros H. apply (pattern_groups m).
  exact (proj1 (match_here_sound pattern s m rest g H)).
Qed.

(** C10: whatever the sensor output, every match of the pattern has four
    groups, the version group is a non-empty run of digits, and the
    descriptor built from the match carries exactly that text as its
    version: the default ["1"] of line 138 is never taken. *)
Theorem sensor_version_is_captured_digits (sensor_out : string) :
  Forall sensor_groups (Re.findall pattern sensor_out).
Proof.
  unfold Re.findall.
  generalize 0 as skip. induction sensor_out as [|c s IH]; intros skip.
  - constructor.
  - cbn [Re.findall_from]. destruct skip as [|n]; [|apply IH].
    destruct (Re.match_here pattern (String c s)) as [[[m rest] g]|] eqn:E.
    + constructor; [|apply IH].
      exact (match_here_sensor_groups (String c s) m rest g E).
    + apply IH.
Qed.

(** ** The sensor source *)

Lemma append_device_to (d : dict) (st : State) (l : list dict) :
  dict_get "Devices" (props st) = Some (V_aasv l) ->
  append_device d st = (Ok tt, with_devices st (l ++ [d])).
Proof. intros H. unfold append_device. rewrite H. reflexivity. Qed.

Lemma truthy_blank (out : string) : blank out -> truthy (strip out) = false.
Proof. unfold blank. intros ->. reflexivity. Qed.

Lemma truthy_not_blank (out : string) :
  ~ blank out -> truthy (strip out) = true.
Proof.
  unfold blank. destruct (strip out); [intros H; destruct H|]; reflexivity.
Qed.

Lemma with_devices_twice (st : State) (l1 l2 : list dict) :
  with_devices (with_devices st l1) l2 = with_devices st l2.
Proof. unfold with_devices. simpl. rewrite dict_set_set. reflexivity. Qed.

Lemma arr_sensor_of_match (id name vendor ver : string) :
  ver <> EmptyString ->
  arr_sensor id name vendor ver = sensor_of_match [id; name; vendor; ver].
Proof.
  intros Hver. destruct ver; [contradiction Hver; reflexivity|].
  destruct id, vendor; reflexivity.
Qed.

(** The loop over the matches never raises on matches of the pattern and
    appends one descriptor per match, in order. *)
Lemma append_sensors_appends (matches : list (list string)) :
  Forall sensor_groups matches ->
  forall st l,
    dict_get "Devices" (props st) = Some (V_aasv l) ->
    append_sensors matches st
    = (Ok tt,
       match matches with
       | [] => st
       | _ => with_devices st (l ++ map sensor_of_match matches)
       end).
Proof.
  induction 1 as [|g rest Hg _ IH]; intros st l Hdev; [reflexivity|].
  destruct Hg as (id & name & vendor & ver & -> & Hne & _ & _).
  cbn [append_sensors]. unfold bind.
  rewrite (append_device_to _ st l Hdev). cbv beta iota.
  erewrite IH by (unfold with_devices; simpl; apply dict_get_set_same).
  rewrite (arr_sensor_of_match id name vendor ver Hne).
  destruct rest as [|g' rest']; [reflexivity|].
  rewrite with_devices_twice, <- app_assoc. reflexivity.
Qed.

(** The sensor parser on an output that is not blank: one descriptor per
    match of the pattern, none when nothing matches, never an exception. *)
Lemma parse_sensors_appends (sensor_out : string) (st : State)
    (l : list dict) :
  ~ blank sensor_out ->
  dict_get "Devices" (props st) = Some (V_aasv l) ->
  parse_sensors sensor_out st
  = (Ok tt,
     match Re.findall pattern sensor_out with
     | [] => st
     | _ =>
         with_devices st
           (l ++ map sensor_of_match (Re.findall pattern sensor_out))
     end).
Proof.
  intros Hout Hdev. unfold parse_sensors. rewrite (truthy_not_blank _ Hout).
  apply append_sensors_appends; [|exact Hdev].
  unfold Re.findall. apply findall_from_Forall.
  exact match_here_sensor_groups.
Qed.

(** C6 (as stated, refuted): the device parsed from the record has the id
    ["1"]; the sensor number 3 is its serial, not its id. *)
Lemma parse_sensors_accel_counterexample :
  exists d,
    devices (snd (parse_sensors accel_record (mkState init_props []))) = [d]
    /\ dict_get "DeviceId" d = Some (V_s "1")
    /\ dict_get "DeviceId" d <> Some (V_s "3")
    /\ dict_get "Serial" d = Some (V_s "3").
Proof.
  eexists. split; [vm_compute; reflexivity|].
  split; [reflexivity|]. split; [discriminate | reflexivity].
Qed.

(** C6 (amended): applied to the record [{ 3 0 "Accel"H "Bosch"H 2 }] the
    sensor parser appends exactly one device, with id ["1"], name
    ["Accel"], vendor ["Bosch"], version ["2"] and serial ["3"]. *)
Theorem parse_sensors_accel (st : State) (l : list dict) :
  dict_get "Devices" (props st) = Some (V_aasv l) ->
  parse_sensors accel_record st
  = (Ok tt, with_devices st (l ++ [accel_device])).
Proof.
  intros H. unfold parse_sensors.
  replace (truthy (strip accel_record)) with true by (vm_compute; reflexivity).
  replace (Re.findall pattern accel_record)
    with [["3"; "Accel"; "Bosch"; "2"]] by (vm_compute; reflexivity).
  cbn [append_sensors]. unfold bind.
  rewrite (append_device_to _ st l H). reflexivity.
Qed.

Lemma parse_sensors_accel_witness :
  parse_sensors accel_record (mkState init_props [])
  = (Ok tt, with_devices (mkState init_props []) ([] ++ [accel_device])).
Proof.
  apply (parse_sensors_accel (mkState init_props []) []). reflexivity.
Defined.

Lemma logged_nil (st : State) : logged st [] = st.
Proof. destruct st. unfold logged. simpl. rewrite app_nil_r. reflexivity. Qed.

Lemma logged_cons (st : State) (v : string) (vs : list string) :
  logged (mkState (props st) (popen_log st ++ [command v])) vs
  = logged st (v :: vs).
Proof. unfold logged. simpl. rewrite <- app_assoc. reflexivity. Qed.

Lemma probe_sensors_first (env : Env) (pre : list string) (v : string)
    (post : list string) (cur : string) (st : State) :
  Forall (fun u => blank (popen env (command u))) pre ->
  ~ blank (popen env (command v)) ->
  probe_sensors env (pre ++ v :: post) cur st
  = (Ok (popen env (command v)), logged st (pre ++ [v])).
Proof.
  intros Hpre Hv. revert cur st.
  induction Hpre as [|u pre Hu _ IH]; intros cur st;
    cbn [app probe_sensors]; unfold bind, run_popen.
  - rewrite (truthy_not_blank _ Hv). reflexivity.
  - rewrite (truthy_blank _ Hu), IH. rewrite logged_cons. reflexivity.
Qed.

Lemma probe_sensors_all_blank (env : Env) (vs : list string) (cur : string)
    (st : State) :
  blank cur ->
  Forall (fun u => blank (popen env (command u))) vs ->
  exists out, blank out
    /\ probe_sensors env vs cur st = (Ok out, logged st vs).
Proof.
  intros Hcur Hvs. revert cur st Hcur.
  induction Hvs as [|u vs Hu _ IH]; intros cur st Hcur;
    cbn [probe_sensors].
  - exists cur. rewrite logged_nil. split; [assumption | reflexivity].
  - unfold bind, run_popen. rewrite (truthy_blank _ Hu).
    destruct (IH (popen env (command u))
                 (mkState (props st) (popen_log st ++ [command u])) Hu)
      as (out & Hout & ->).
    exists out. rewrite logged_cons. split; [assumption | reflexivity].
Qed.

(** C7 (as stated, refuted): when version 1.0 prints nothing and version
    2.0 prints a newline only, the output of 2.0 is not empty, yet version
    2.1 is invoked and the devices come from its output. *)
Lemma sensor_source_counterexample :
  let env := sensor_env EmptyString (chr nl) accel_record in
  let st := snd (sensor_source env (mkState init_props [])) in
  popen env (command "1.0") = EmptyString
  /\ popen env (command "2.0") <> EmptyString
  /\ popen_log st = [command "1.0"; command "2.0"; command "2.1"]
  /\ devices st = [accel_device].
Proof.
  cbv zeta. split; [vm_compute; reflexivity|].
  split; [vm_compute; discriminate|].
  split; vm_compute; reflexivity.
Qed.

(** C7 (amended): the versions are tried in the order 1.0, 2.0, 2.1 and
    the probe stops at the first one whose output is not empty once
    stripped of white space: that output alone is parsed and no later
    version is invoked; when every output is empty once stripped, all three
    are invoked and no sensor device is produced. *)
Theorem sensor_source_first_nonblank (env : Env) (st : State) :
  (forall pre v post,
      sensor_hal = pre ++ v :: post ->
      Forall (fun u => blank (popen env (command u))) pre ->
      ~ blank (popen env (command v)) ->
      sensor_source env st
      = parse_sensors (popen env (command v)) (logged st (pre ++ [v])))
  /\ (Forall (fun u => blank (popen env (command u))) sensor_hal ->
      sensor_source env st = (Ok tt, logged st sensor_hal)).
Proof.
  split.
  - intros pre v post Hhal Hpre Hv. unfold sensor_source, bind.
    rewrite Hhal, (probe_sensors_first env pre v post _ st Hpre Hv).
    reflexivity.
  - intros Hall. unfold sensor_source, bind.
    destruct (probe_sensors_all_blank env sensor_hal EmptyString st)
      as (out & Hout & ->); [reflexivity | exact Hall |].
    unfold parse_sensors. rewrite (truthy_blank _ Hout). reflexivity.
Qed.

Lemma sensor_source_first_nonblank_witness :
  sensor_source (sensor_env EmptyString accel_record accel_record)
    (mkState init_props [])
  = parse_sensors accel_record
      (logged (mkState init_props []) (["1.0"] ++ ["2.0"]))
  /\ sensor_source (sensor_env EmptyString EmptyString EmptyString)
       (mkState init_props [])
     = (Ok tt, logged (mkState init_props []) sensor_hal).
Proof.
  split.
  - apply (proj1 (sensor_source_first_nonblank
                    (sensor_env EmptyString accel_record accel_record)
                    (mkState init_props []))
             ["1.0"] "2.0" ["2.1"]).
    + reflexivity.
    + constructor; [reflexivity | constructor].
    + vm_compute. discriminate.
  - apply (proj2 (sensor_source_first_nonblank
                    (sensor_env EmptyString EmptyString EmptyString)
                    (mkState init_props []))).
    repeat constructor.
Defined.

(** ** The shape of the descriptors *)

Lemma well_formed_arr_bootloader (vendor bootloader serialno : string) :
  well_formed (arr_bootloader vendor bootloader serialno).
Proof. unfold well_formed, is_string. simpl. repeat split; eexists; reflexivity. Qed.

Lemma well_formed_arr_modem (vendor rev ver serial : string) :
  well_formed (arr_modem vendor rev ver serial).
Proof. unfold well_formed, is_string. simpl. repeat split; eexists; reflexivity. Qed.

Lemma well_formed_arr_sensor (id name vendor ver : string) :
  well_formed (arr_sensor id name vendor ver).
Proof. unfold well_formed, is_string. simpl. repeat split; eexists; reflexivity. Qed.

Lemma preserves_ret {A} (P : State -> Prop) (a : A) : preserves P (ret a).
Proof. intros st H. exact H. Qed.

Lemma preserves_raise {A} (P : State -> Prop) (e : exn) :
  preserves P (@raise A e).
Proof. intros st H. exact H. Qed.

Lemma preserves_lift {A} (P : State -> Prop) (r : result A) :
  preserves P (lift r).
Proof. intros st H. exact H. Qed.

Lemma preserves_bind {A B} (P : State -> Prop) (c : M A) (k : A -> M B) :
  preserves P c -> (forall a, preserves P (k a)) -> preserves P (bind c k).
Proof.
  intros Hc Hk st H. unfold bind. specialize (Hc st H).
  destruct (c st) as [[a | e] st']; simpl in Hc; [apply Hk|]; exact Hc.
Qed.

Lemma GetDevices_inv (st : State) (l : list dict) :
  GetDevices st = Ok (V_aasv l) ->
  dict_get "Devices" (props st) = Some (V_aasv l).
Proof.
  unfold GetDevices, prop_value.
  destruct (dict_get "Devices" (props st)); [|discriminate].
  intros H. injection H as ->. reflexivity.
Qed.

Lemma shaped_set_prop (k : string) (v : Variant) :
  k <> "Devices" -> preserves shaped (set_prop k v).
Proof.
  intros Hk st H. unfold shaped, GetDevices, prop_value, set_prop in *.
  simpl. rewrite (dict_get_set_other k "Devices" v (props st) Hk). exact H.
Qed.

Lemma shaped_append_device (d : dict) :
  well_formed d -> preserves shaped (append_device d).
Proof.
  intros Hd st (l & E & Hl). apply GetDevices_inv in E.
  rewrite (append_device_to d st l E). simpl.
  exists (l ++ [d]). split.
  - unfold GetDevices, prop_value, with_devices. simpl.
    rewrite dict_get_set_same. reflexivity.
  - apply Forall_app. split; [exact Hl|].
    constructor; [exact Hd | constructor].
Qed.

Lemma shaped_run_popen (env : Env) (c : string) :
  preserves shaped (run_popen env c).
Proof. intros st H. exact H. Qed.

Lemma shaped_probe_sensors (env : Env) (versions : list string) :
  forall cur, preserves shaped (probe_sensors env versions cur).
Proof.
  induction versions as [|v rest IH]; intros cur; cbn [probe_sensors].
  - apply preserves_ret.
  - apply preserves_bind; [apply shaped_run_popen|].
    intros out. destruct (truthy (strip out)); [apply preserves_ret | apply IH].
Qed.

Lemma shaped_append_sensors (matches : list (list string)) :
  preserves shaped (append_sensors matches).
Proof.
  induction matches as [|g rest IH]; [apply preserves_ret|].
  destruct g as [|a [|b [|c [|d [|e g]]]]]; cbn [append_sensors];
    try apply preserves_raise.
  apply preserves_bind; [|intros _; exact IH].
  apply shaped_append_device, well_formed_arr_sensor.
Qed.

Lemma shaped_bootloader_source (env : Env) (vendor : string) :
  preserves shaped (bootloader_source env vendor).
Proof.
  unfold bootloader_source.
  apply preserves_bind; [apply preserves_lift|]. intros vars.
  apply preserves_bind; [apply preserves_lift|]. intros bootloader.
  destruct (truthy bootloader); [|apply preserves_ret].
  apply preserves_bind; [apply preserves_lift|]. intros serialno.
  apply shaped_append_device, well_formed_arr_bootloader.
Qed.

Lemma shaped_modem_source (env : Env) (vendor : string) :
  preserves shaped (modem_source env vendor).
Proof.
  unfold modem_source. destruct (telephony_try env); [|apply preserves_ret].
  repeat (apply preserves_bind; [apply preserves_lift|]; intro).
  apply shaped_append_device, well_formed_arr_modem.
Qed.

Lemma shaped_sensor_source (env : Env) : preserves shaped (sensor_source env).
Proof.
  unfold sensor_source.
  apply preserves_bind; [apply shaped_probe_sensors|]. intros out.
  unfold parse_sensors.
  destruct (truthy (strip out));
    [apply shaped_append_sensors | apply preserves_ret].
Qed.

Lemma shaped_set_props (env : Env) : preserves shaped (set_props env).
Proof.
  unfold set_props.
  apply preserves_bind; [apply preserves_lift|]. intros vendor.
  apply preserves_bind; [apply shaped_set_prop; discriminate|]. intros _.
  apply preserves_bind; [apply preserves_lift|]. intros codename.
  apply preserves_bind; [apply shaped_set_prop; discriminate|]. intros _.
  apply preserves_bind; [apply preserves_lift|]. intros machine_id.
  apply preserves_bind; [apply shaped_set_prop; discriminate|]. intros _.
  apply preserves_bind; [apply shaped_bootloader_source|]. intros _.
  apply preserves_bind; [apply shaped_modem_source|]. intros _.
  apply shaped_sensor_source.
Qed.

(** C8: in every environment the service object holds a device list, and
    every descriptor the aggregation has put into it (whether [set_props]
    returns or raises) has
    the eight keys DeviceId, Name, Vendor, Version, Plugin, Protocol, Flags
    and Serial, a string (possibly empty) under each of DeviceId, Name,
    Vendor, Version and Serial, ["hybris"] as Plugin and Protocol, and the
    flags 2. *)
Theorem devices_well_formed (env : Env) :
  exists l,
    GetDevices (snd (FWUPDInterface env)) = Ok (V_aasv l)
    /\ Forall well_formed l.
Proof.
  apply (shaped_set_props env (mkState init_props [])).
  exists []. split; [reflexivity | constructor].
Qed.

(** ** End to end *)

(** C2: with the property file (at any of the candidate paths) declaring
    the manufacturer [acme] and the name [widget], the boot configuration
    declaring the bootloader [abl] and the serial number [123] (in the
    kernel's spelling with spaces and quotes, or plainly), no telephony
    service and empty sensor output, start-up succeeds, [GetDevices]
    returns the single bootloader device and [HostVendor] and
    [HostProduct] read ["ACME"] and ["WIDGET"]. *)
Theorem end_to_end (build_prop_path bootconfig : string)
    (machine_id : option string) :
  In build_prop_path prop_files ->
  In bootconfig [e2e_bootconfig; e2e_bootconfig_plain] ->
  let r := FWUPDInterface (e2e_env build_prop_path bootconfig machine_id) in
  fst r = Ok tt
  /\ GetDevices (snd r) = Ok (V_aasv [e2e_device])
  /\ HostVendor (snd r) = Ok (V_s "ACME")
  /\ HostProduct (snd r) = Ok (V_s "WIDGET").
Proof.
  intros Hin Hboot. cbv zeta.
  destruct Hboot as [<- | [<- | []]];
    repeat (destruct Hin as [<- | Hin]); try (destruct Hin);
    destruct machine_id; vm_compute; repeat split.
Qed.

Lemma end_to_end_witness :
  let r := FWUPDInterface (e2e_env "/vendor/build.prop" e2e_bootconfig None) in
  fst r = Ok tt
  /\ GetDevices (snd r) = Ok (V_aasv [e2e_device])
  /\ HostVendor (snd r) = Ok (V_s "ACME")
  /\ HostProduct (snd r) = Ok (V_s "WIDGET").
Proof.
  apply (end_to_end "/vendor/build.prop" e2e_bootconfig None);
    simpl; tauto.
Defined.

(** * Further properties of the code *)

(** ** The property reader *)

Lemma extract_prop_key_absent_witness :
  extract_prop two_eq_fs "ro.bootloader" = Ok EmptyString.
Proof.
  apply (extract_prop_key_absent two_eq_fs "ro.bootloader"
           "/vendor/build.prop" ("key=a=b" ++ chr nl)%string
           ["/var/lib/lxc/android/rootfs/vendor/build.prop";
            "/android/vendor/build.prop"]
           ["/var/lib/lxc/android/rootfs/odm/etc/build.prop";
            "/android/odm/etc/build.prop"; "/odm/etc/build.prop";
            "/vendor/odm_dlkm/etc/build.prop"]); try reflexivity.
  - intros p [<- | [<- | []]]; reflexivity.
  - intros l [<- | []]. reflexivity.
Defined.

Lemma extract_prop_unreadable_witness :
  extract_prop unreadable_fs "key" = Raise (OSError "/vendor/build.prop").
Proof.
  apply (extract_prop_unreadable unreadable_fs "key" "/vendor/build.prop"
           ["/var/lib/lxc/android/rootfs/vendor/build.prop";
            "/android/vendor/build.prop"]
           ["/var/lib/lxc/android/rootfs/odm/etc/build.prop";
            "/android/odm/etc/build.prop"; "/odm/etc/build.prop";
            "/vendor/odm_dlkm/etc/build.prop"]); try reflexivity.
  intros p [<- | [<- | []]]; reflexivity.
Defined.

Lemma extract_prop_line_without_eq_witness :
  extract_prop bare_key_fs "key" = Raise IndexError.
Proof.
  apply (extract_prop_line_without_eq bare_key_fs "key" "/vendor/build.prop"
           ("key" ++ chr nl)%string
           ["/var/lib/lxc/android/rootfs/vendor/build.prop";
            "/android/vendor/build.prop"]
           ["/var/lib/lxc/android/rootfs/odm/etc/build.prop";
            "/android/odm/etc/build.prop"; "/odm/etc/build.prop";
            "/vendor/odm_dlkm/etc/build.prop"]
           ("key" ++ chr nl)%string [] []); try reflexivity.
  - intros p [<- | [<- | []]]; reflexivity.
  - intros l [].
Defined.

(** X4: the first existing candidate path alone decides: what lies at the
    later candidate paths is never looked at, also when the first one lacks
    the key, cannot be opened or makes the reader raise. *)
Theorem extract_prop_first_candidate_only
    (fs1 fs2 : filesystem) (prop file : string)
    (earlier later : list string) :
  prop_files = earlier ++ file :: later ->
  (forall p, In p earlier -> fs1 p = None /\ fs2 p = None) ->
  fs1 file <> None ->
  fs1 file = fs2 file ->
  extract_prop fs1 prop = extract_prop fs2 prop.
Proof.
  intros Hfiles Hearlier Hsome Hsame. unfold extract_prop. rewrite Hfiles.
  rewrite (select_file_first fs1 earlier later file None)
    by (try exact Hsome; intros p Hp; apply (Hearlier p Hp)).
  rewrite (select_file_first fs2 earlier later file None)
    by (try (rewrite <- Hsame; exact Hsome);
        intros p Hp; apply (Hearlier p Hp)).
  unfold open_read. rewrite Hsame. reflexivity.
Qed.

Lemma extract_prop_first_candidate_only_witness :
  extract_prop two_eq_fs "other" = extract_prop shadowed_fs "other".
Proof.
  apply (extract_prop_first_candidate_only two_eq_fs shadowed_fs "other"
           "/vendor/build.prop"
           ["/var/lib/lxc/android/rootfs/vendor/build.prop";
            "/android/vendor/build.prop"]
           ["/var/lib/lxc/android/rootfs/odm/etc/build.prop";
            "/android/odm/etc/build.prop"; "/odm/etc/build.prop";
            "/vendor/odm_dlkm/etc/build.prop"]).
  - reflexivity.
  - intros p [<- | [<- | []]]; split; reflexivity.
  - discriminate.
  - reflexivity.
Defined.

(** *** The shape of a returned value *)

Lemma split_fields_without_sep (sep : ascii) (s f : string) :
  In f (split sep s) -> all_chars (not_char sep) f = true.
Proof.
  revert f. induction s as [|c s IH]; intros f H.
  - destruct H as [<- | []]. reflexivity.
  - cbn [split] in H. destruct (Ascii.eqb c sep) eqn:E.
    + destruct H as [<- | H]; [reflexivity | apply IH, H].
    + destruct (split sep s) as [|h t] eqn:Es.
      * destruct H as [<- | []]. simpl. unfold not_char. rewrite E. reflexivity.
      * destruct H as [<- | H].
        -- simpl. unfold not_char at 1. rewrite E. simpl.
           apply IH. left. reflexivity.
        -- apply IH. right. exact H.
Qed.

Lemma all_chars_lstrip (p q : ascii -> bool) (s : string) :
  all_chars p s = true -> all_chars p (lstrip_by q s) = true.
Proof.
  induction s as [|c s IH]; intros H; [reflexivity|]. cbn [lstrip_by].
  destruct (q c); [|exact H].
  apply IH. simpl in H. apply andb_prop in H. apply H.
Qed.

Lemma all_chars_rstrip (p q : ascii -> bool) (s : string) :
  all_chars p s = true -> all_chars p (rstrip_by q s) = true.
Proof.
  induction s as [|c s IH]; intros H; [reflexivity|]. cbn [rstrip_by].
  simpl in H. apply andb_prop in H as [Hc Hs]. specialize (IH Hs).
  destruct (rstrip_by q s) as [|d r].
  - destruct (q c); [reflexivity|]. simpl. rewrite Hc. reflexivity.
  - cbn [all_chars]. rewrite Hc. exact IH.
Qed.

Lemma rstrip_idempotent (p : ascii -> bool) (s : string) :
  rstrip_by p (rstrip_by p s) = rstrip_by p s.
Proof.
  induction s as [|c s IH]; [reflexivity|]. cbn [rstrip_by].
  destruct (rstrip_by p s) as [|d r] eqn:E.
  - destruct (p c) eqn:Hc; [reflexivity|]. simpl. rewrite Hc. reflexivity.
  - cbn [rstrip_by]. cbn [rstrip_by] in IH. rewrite IH. reflexivity.
Qed.

Lemma lstrip_of_rstrip (p : ascii -> bool) (s : string) :
  lstrip_by p (rstrip_by p (lstrip_by p s)) = rstrip_by p (lstrip_by p s).
Proof.
  induction s as [|c s IH]; [reflexivity|]. cbn [lstrip_by].
  destruct (p c) eqn:Hc; [exact IH|]. cbn [rstrip_by].
  destruct (rstrip_by p s); rewrite ?Hc; simpl; rewrite Hc; reflexivity.
Qed.

Lemma strip_by_idempotent (p : ascii -> bool) (s : string) :
  strip_by p (strip_by p s) = strip_by p s.
Proof.
  unfold strip_by. rewrite lstrip_of_rstrip. apply rstrip_idempotent.
Qed.

Lemma lines_nl_at_end (s line : string) :
  In line (lines s) -> nl_at_end_only line = true.
Proof.
  revert line. induction s as [|c s IH]; intros line H; [destruct H|].
  cbn [lines] in H. destruct (Ascii.eqb c nl) eqn:E.
  - destruct H as [<- | H]; [reflexivity | apply IH, H].
  - destruct (lines s) as [|h t] eqn:El.
    + destruct H as [<- | []]. reflexivity.
    + destruct H as [<- | H]; [|apply IH; right; exact H].
      cbn [nl_at_end_only]. destruct h as [|d h']; [reflexivity|].
      unfold not_char. rewrite E. simpl negb. cbn [andb].
      apply IH. left. reflexivity.
Qed.

Lemma nl_at_end_tail (c : ascii) (s : string) :
  nl_at_end_only (String c s) = true -> nl_at_end_only s = true.
Proof.
  cbn [nl_at_end_only]. destruct s as [|d s']; [reflexivity|].
  intros H. apply andb_prop in H. apply H.
Qed.

Lemma split_nl_at_end (sep : ascii) (s f : string) :
  nl_at_end_only s = true -> In f (split sep s) -> nl_at_end_only f = true.
Proof.
  revert f. induction s as [|c s IH]; intros f Hs H.
  - destruct H as [<- | []]. reflexivity.
  - pose proof (nl_at_end_tail c s Hs) as Hs'.
    cbn [split] in H. destruct (Ascii.eqb c sep).
    + destruct H as [<- | H]; [reflexivity | apply (IH f Hs' H)].
    + destruct (split sep s) as [|h t] eqn:Es.
      * destruct H as [<- | []]. reflexivity.
      * destruct H as [<- | H]; [|apply (IH f Hs'); right; exact H].
        cbn [nl_at_end_only]. destruct h as [|d h']; [reflexivity|].
        destruct s as [|e s'']; [simpl in Es; discriminate Es|].
        cbn [nl_at_end_only] in Hs. apply andb_prop in Hs as [Hc _].
        rewrite Hc. cbn [andb]. apply (IH (String d h') Hs'). left. reflexivity.
Qed.

Lemma not_space_not_nl (c : ascii) : isspace c = false -> not_char nl c = true.
Proof.
  intros H. unfold not_char. destruct (Ascii.eqb_spec c nl) as [-> | _];
    [vm_compute in H; discriminate H | reflexivity].
Qed.

Lemma rstrip_space_without_nl (s : string) :
  nl_at_end_only s = true ->
  all_chars (not_char nl) (rstrip_by isspace s) = true.
Proof.
  induction s as [|c s IH]; intros H; [reflexivity|].
  pose proof (IH (nl_at_end_tail c s H)) as IH'. cbn [rstrip_by].
  destruct (rstrip_by isspace s) as [|d r] eqn:E.
  - destruct (isspace c) eqn:Hc; [reflexivity|].
    simpl. rewrite (not_space_not_nl c Hc). reflexivity.
  - destruct s as [|e s']; [discriminate E|].
    cbn [nl_at_end_only] in H. apply andb_prop in H as [Hc _].
    cbn [all_chars]. rewrite Hc. exact IH'.
Qed.

Lemma lstrip_nl_at_end (p : ascii -> bool) (s : string) :
  nl_at_end_only s = true -> nl_at_end_only (lstrip_by p s) = true.
Proof.
  induction s as [|c s IH]; intros H; [reflexivity|]. cbn [lstrip_by].
  destruct (p c); [|exact H]. apply IH, (nl_at_end_tail c s H).
Qed.

Lemma scan_prop_lines_value (prop : string) (ls : list string) (v : string) :
  scan_prop_lines prop ls = Ok v ->
  v = EmptyString
  \/ exists line f,
       In line ls /\ In f (split eq_sign line) /\ v = strip f.
Proof.
  induction ls as [|line rest IH]; cbn [scan_prop_lines]; intros H.
  - injection H as <-. left. reflexivity.
  - destruct (startswith line prop).
    + destruct (nth_error (split eq_sign line) 1) as [f|] eqn:E;
        [|discriminate H].
      injection H as <-. right. exists line, f.
      split; [left; reflexivity|]. split; [|reflexivity].
      exact (nth_error_In _ _ E).
    + destruct (IH H) as [-> | (l & f & Hl & Hf & ->)]; [left; reflexivity|].
      right. exists l, f. split; [right; exact Hl|]. split; [exact Hf | reflexivity].
Qed.

(** X5: whatever the file system and the key, a value the reader returns has
    no ['='] and no newline in it and no white space at either end. *)
Theorem extract_prop_value_clean (fs : filesystem) (prop v : string) :
  extract_prop fs prop = Ok v -> clean_value v.
Proof.
  unfold extract_prop. destruct (select_file fs prop_files None) as [file|];
    [|discriminate].
  unfold open_read. destruct (fs file) as [[text|]|]; try discriminate.
  cbn [rbind]. intros H.
  destruct (scan_prop_lines_value prop (lines text) v H)
    as [-> | (line & f & Hline & Hf & ->)].
  - repeat split.
  - split; [|split].
    + unfold no_eq_sign, strip, strip_by.
      apply all_chars_rstrip, all_chars_lstrip.
      exact (split_fields_without_sep eq_sign line f Hf).
    + unfold strip, strip_by. apply rstrip_space_without_nl, lstrip_nl_at_end.
      apply (split_nl_at_end eq_sign line f); [|exact Hf].
      exact (lines_nl_at_end text line Hline).
    + apply strip_by_idempotent.
Qed.

Lemma extract_prop_value_clean_witness : clean_value "a".
Proof.
  apply (extract_prop_value_clean two_eq_fs "key" "a"). reflexivity.
Defined.

(** ** What [set_props] leaves alone *)

Lemma bind_ok {A B} (c : M A) (k : A -> M B) (st st' : State) (a : A) :
  c st = (Ok a, st') -> bind c k st = k a st'.
Proof. intros H. unfold bind. rewrite H. reflexivity. Qed.

Lemma bind_raise {A B} (c : M A) (k : A -> M B) (st st' : State) (e : exn) :
  c st = (Raise e, st') -> bind c k st = (Raise e, st').
Proof. intros H. unfold bind. rewrite H. reflexivity. Qed.

Section Frame.

(** An invariant kept by the appending of each of the three kinds of
    descriptor and by the call of a subprocess is kept by the three
    sources, whether they return or raise. *)
Variable P : State -> Prop.
Hypothesis P_bootloader :
  forall v b s, preserves P (append_device (arr_bootloader v b s)).
Hypothesis P_modem :
  forall v r s n, preserves P (append_device (arr_modem v r s n)).
Hypothesis P_sensor :
  forall i n v s, preserves P (append_device (arr_sensor i n v s)).
Hypothesis P_popen : forall env c, preserves P (run_popen env c).

Lemma frame_bootloader_source (env : Env) (vendor : string) :
  preserves P (bootloader_source env vendor).
Proof.
  unfold bootloader_source.
  apply preserves_bind; [apply preserves_lift|]. intros vars.
  apply preserves_bind; [apply preserves_lift|]. intros bootloader.
  destruct (truthy bootloader); [|apply preserves_ret].
  apply preserves_bind; [apply preserves_lift|]. intros serialno.
  apply P_bootloader.
Qed.

Lemma frame_modem_source (env : Env) (vendor : string) :
  preserves P (modem_source env vendor).
Proof.
  unfold modem_source. destruct (telephony_try env); [|apply preserves_ret].
  repeat (apply preserves_bind; [apply preserves_lift|]; intro).
  apply P_modem.
Qed.

Lemma frame_probe_sensors (env : Env) (versions : list string) :
  forall cur, preserves P (probe_sensors env versions cur).
Proof.
  induction versions as [|v rest IH]; intros cur; cbn [probe_sensors].
  - apply preserves_ret.
  - apply preserves_bind; [apply P_popen|].
    intros out. destruct (truthy (strip out)); [apply preserves_ret | apply IH].
Qed.

Lemma frame_append_sensors (matches : list (list string)) :
  preserves P (append_sensors matches).
Proof.
  induction matches as [|g rest IH]; [apply preserves_ret|].
  destruct g as [|a [|b [|c [|d [|e g]]]]]; cbn [append_sensors];
    try apply preserves_raise.
  apply preserves_bind; [apply P_sensor | intros _; exact IH].
Qed.

Lemma frame_sensor_source (env : Env) : preserves P (sensor_source env).
Proof.
  unfold sensor_source.
  apply preserves_bind; [apply frame_probe_sensors|]. intros out.
  unfold parse_sensors.
  destruct (truthy (strip out));
    [apply frame_append_sensors | apply preserves_ret].
Qed.

Lemma frame_sources (env : Env) (vendor : string) :
  preserves P
    (bind (bootloader_source env vendor)
       (fun _ => bind (modem_source env vendor)
                   (fun _ => sensor_source env))).
Proof.
  apply preserves_bind; [apply frame_bootloader_source|]. intros _.
  apply preserves_bind; [apply frame_modem_source|]. intros _.
  apply frame_sensor_source.
Qed.

(** With the three assignments to host properties it is kept by
    [set_props]. *)
Hypothesis P_host :
  forall k v, In k ["HostVendor"; "HostProduct"; "HostMachineId"] ->
              preserves P (set_prop k v).

Lemma frame_set_props (env : Env) : preserves P (set_props env).
Proof.
  unfold set_props.
  apply preserves_bind; [apply preserves_lift|]. intros vendor.
  apply preserves_bind; [apply P_host; simpl; tauto|]. intros _.
  apply preserves_bind; [apply preserves_lift|]. intros codename.
  apply preserves_bind; [apply P_host; simpl; tauto|]. intros _.
  apply preserves_bind; [apply preserves_lift|]. intros machine_id.
  apply preserves_bind; [apply P_host; simpl; tauto|]. intros _.
  apply frame_sources.
Qed.

End Frame.

Lemma holds_append_device (k : string) (v : Variant) (d : dict) :
  k <> "Devices" -> preserves (holds k v) (append_device d).
Proof.
  intros Hk st H. unfold append_device.
  destruct (dict_get "Devices" (props st)) as [[s|b|n|n|l]|]; try exact H.
  unfold holds in *. simpl.
  rewrite dict_get_set_other by (intros E; apply Hk; symmetry; exact E).
  exact H.
Qed.

Lemma holds_run_popen (k : string) (v : Variant) (env : Env) (c : string) :
  preserves (holds k v) (run_popen env c).
Proof. intros st H. exact H. Qed.

Lemma holds_set_prop_other (k k' : string) (v v' : Variant) :
  k' <> k -> preserves (holds k v) (set_prop k' v').
Proof.
  intros Hk st H. unfold holds, set_prop in *. simpl.
  rewrite dict_get_set_other by exact Hk. exact H.
Qed.

(** A key other than [Devices] keeps its value through the three
    sources. *)
Lemma holds_sources (k : string) (v : Variant) (env : Env) (vendor : string) :
  k <> "Devices" ->
  preserves (holds k v)
    (bind (bootloader_source env vendor)
       (fun _ => bind (modem_source env vendor)
                   (fun _ => sensor_source env))).
Proof.
  intros Hk. apply frame_sources; intros;
    try (apply holds_append_device; exact Hk); apply holds_run_popen.
Qed.

(** A key that is none of the four [set_props] writes to keeps its value
    through [set_props]. *)
Lemma holds_set_props (k : string) (v : Variant) (env : Env) :
  ~ In k assigned_keys -> preserves (holds k v) (set_props env).
Proof.
  intros Hk. apply frame_set_props; intros;
    try (apply holds_append_device; intros ->; apply Hk; simpl; tauto);
    try apply holds_run_popen.
  apply holds_set_prop_other. intros ->. apply Hk.
  unfold assigned_keys. simpl in *. tauto.
Qed.

(** X7: the properties that [set_props] never assigns read, after start-up in
    any environment and whether start-up returned or raised, what
    [__init__] put there: the daemon version ["1.9.12"], an empty [HostBkc],
    the security id ["1"], the fixed flags and counters, and the one plugin
    [hybris]. *)
Theorem static_properties_fixed (env : Env) :
  let st := snd (FWUPDInterface env) in
  DaemonVersion st = Ok (V_s "1.9.12")
  /\ HostBkc st = Ok (V_s "")
  /\ HostSecurityId st = Ok (V_s "1")
  /\ Tainted st = Ok (V_b false)
  /\ Interactive st = Ok (V_b false)
  /\ Status st = Ok (V_u 1)
  /\ Percentage st = Ok (V_u 0)
  /\ BatteryLevel st = Ok (V_u 101)
  /\ OnlyTrusted st = Ok (V_b true)
  /\ GetPlugins st = Ok (V_aasv [[("Name", V_s "hybris")]]).
Proof.
  cbv zeta.
  assert (K : forall k v,
             ~ In k assigned_keys ->
             dict_get k init_props = Some v ->
             prop_value k (snd (FWUPDInterface env)) = Ok v).
  { intros k v Hk Hv. unfold prop_value.
    rewrite (holds_set_props k v env Hk (mkState init_props []) Hv).
    reflexivity. }
  repeat split; apply K; try reflexivity;
    unfold assigned_keys; simpl; intros H;
    repeat (destruct H as [H | H]; [discriminate H|]); exact H.
Qed.

(** ** The host properties *)

Lemma truthy_upper (s : string) :
  (if truthy s then upper s else EmptyString) = upper s.
Proof. destruct s; reflexivity. Qed.

(** Once the two property reads and the read of the machine id have
    returned, what remains of [set_props] is the three sources, run on the
    state with the three host properties assigned. *)
Lemma set_props_after_host (env : Env) (st : State)
    (vendor codename machine_id : string) :
  extract_prop (fs env) "ro.product.vendor.manufacturer" = Ok vendor ->
  extract_prop (fs env) "ro.product.vendor.name" = Ok codename ->
  read_machine_id env = Ok machine_id ->
  set_props env st
  = bind (bootloader_source env vendor)
      (fun _ => bind (modem_source env vendor) (fun _ => sensor_source env))
      (mkState
         (dict_set "HostMachineId" (V_s machine_id)
            (dict_set "HostProduct" (V_s (upper codename))
               (dict_set "HostVendor" (V_s (upper vendor)) (props st))))
         (popen_log st)).
Proof.
  intros Hv Hc Hm. unfold set_props. rewrite Hv, Hc, Hm.
  rewrite <- (truthy_upper vendor), <- (truthy_upper codename). reflexivity.
Qed.

(** X8: when both property reads return ASCII texts, [HostVendor] and
    [HostProduct] are the upper-cased manufacturer and name, whatever the
    sources do afterwards: also when one of them raises. *)
Theorem host_properties_upper (env : Env) (vendor codename machine_id : string) :
  extract_prop (fs env) "ro.product.vendor.manufacturer" = Ok vendor ->
  extract_prop (fs env) "ro.product.vendor.name" = Ok codename ->
  is_ascii vendor = true -> is_ascii codename = true ->
  read_machine_id env = Ok machine_id ->
  let st := snd (FWUPDInterface env) in
  HostVendor st = Ok (V_s (upper vendor))
  /\ HostProduct st = Ok (V_s (upper codename)).
Proof.
  intros Hv Hc _ _ Hm. cbv zeta. unfold FWUPDInterface.
  rewrite (set_props_after_host env _ vendor codename machine_id Hv Hc Hm).
  split; unfold HostVendor, HostProduct, prop_value.
  - rewrite (holds_sources "HostVendor" (V_s (upper vendor)) env vendor);
      [reflexivity | discriminate | reflexivity].
  - rewrite (holds_sources "HostProduct" (V_s (upper codename)) env vendor);
      [reflexivity | discriminate | reflexivity].
Qed.

Lemma host_properties_upper_witness :
  let st := snd (FWUPDInterface serial_only_env) in
  HostVendor st = Ok (V_s (upper "acme"))
  /\ HostProduct st = Ok (V_s (upper "widget")).
Proof.
  apply (host_properties_upper serial_only_env "acme" "widget" EmptyString);
    reflexivity.
Defined.

(** X9: the machine id is the text of [/etc/machine-id] as it is, its
    newline included, and the empty string when there is no such file. *)
Theorem host_machine_id_verbatim (env : Env) (vendor codename : string) :
  extract_prop (fs env) "ro.product.vendor.manufacturer" = Ok vendor ->
  extract_prop (fs env) "ro.product.vendor.name" = Ok codename ->
  fs env "/etc/machine-id" <> Some Unreadable ->
  HostMachineId (snd (FWUPDInterface env))
  = Ok (V_s (match fs env "/etc/machine-id" with
             | Some (File text) => text
             | _ => EmptyString
             end)).
Proof.
  intros Hv Hc Hm. unfold FWUPDInterface.
  assert (E : read_machine_id env
              = Ok (match fs env "/etc/machine-id" with
                    | Some (File text) => text
                    | _ => EmptyString
                    end)).
  { unfold read_machine_id, path_exists, open_read.
    destruct (fs env "/etc/machine-id") as [[text|]|];
      [reflexivity | contradiction Hm; reflexivity | reflexivity]. }
  rewrite (set_props_after_host env _ vendor codename _ Hv Hc E).
  unfold HostMachineId, prop_value.
  erewrite (holds_sources "HostMachineId" _ env vendor);
    [reflexivity | discriminate | reflexivity].
Qed.

Lemma host_machine_id_verbatim_witness :
  HostMachineId
    (snd (FWUPDInterface
            (e2e_env "/vendor/build.prop" e2e_bootconfig
               (Some ("0123abcd" ++ chr nl)%string))))
  = Ok (V_s ("0123abcd" ++ chr nl)%string).
Proof.
  apply (host_machine_id_verbatim
           (e2e_env "/vendor/build.prop" e2e_bootconfig
              (Some ("0123abcd" ++ chr nl)%string)) "acme" "widget");
    try reflexivity.
  discriminate.
Defined.

(** X6: without any candidate property file start-up raises at its first
    statement: no property is assigned, no device is appended, no
    subprocess is started. *)
Theorem startup_without_property_file (env : Env) :
  (forall p, In p prop_files -> fs env p = None) ->
  FWUPDInterface env
  = (Raise (FileNotFoundError "/vendor/odm_dlkm/etc/build.prop"),
     mkState init_props []).
Proof.
  intros H. unfold FWUPDInterface, set_props.
  apply bind_raise. unfold lift, extract_prop.
  rewrite (select_file_none (fs env) prop_files None H).
  cbn [prop_files map last]. unfold open_read.
  rewrite H by (simpl; tauto). reflexivity.
Qed.

Lemma startup_without_property_file_witness :
  FWUPDInterface (sensor_env accel_record accel_record accel_record)
  = (Raise (FileNotFoundError "/vendor/odm_dlkm/etc/build.prop"),
     mkState init_props []).
Proof.
  apply (startup_without_property_file
           (sensor_env accel_record accel_record accel_record)).
  intros p _. reflexivity.
Defined.

(** ** The bootloader source, further *)

Lemma scan_bootconfig_app (l1 l2 : list string) (bl sn : option string) :
  scan_bootconfig (l1 ++ l2) bl sn
  = scan_bootconfig l2 (fst (scan_bootconfig l1 bl sn))
                       (snd (scan_bootconfig l1 bl sn)).
Proof.
  revert bl sn. induction l1 as [|line rest IH]; intros bl sn; [reflexivity|].
  cbn [app scan_bootconfig]. apply IH.
Qed.

Lemma scan_bootconfig_keeps_serialno (ls : list string)
    (bootloader bootloader_serialno : option string) :
  (forall line, In line ls -> contains "androidboot.serialno" line = false) ->
  snd (scan_bootconfig ls bootloader bootloader_serialno)
  = bootloader_serialno.
Proof.
  revert bootloader bootloader_serialno.
  induction ls as [|line rest IH]; intros bl sn H; [reflexivity|].
  cbn [scan_bootconfig]. rewrite IH by (intros l Hl; apply H; right; exact Hl).
  unfold bootconfig_field at 1. rewrite (H line (or_introl eq_refl)).
  reflexivity.
Qed.

Lemma bootconfig_field_sets (marker line v : string) (old : option string) :
  sets_field marker line v ->
  bootconfig_field marker line old = Some (bootconfig_value v).
Proof.
  intros (Hc & k & -> & Hk & Hv). unfold bootconfig_field. rewrite Hc.
  unfold chr. simpl String.append.
  rewrite (split_at_first_sep eq_sign k v Hk).
  rewrite (split_without_sep eq_sign v Hv). reflexivity.
Qed.

(** The last line that carries a marker decides the variable. *)
Lemma scan_bootconfig_bootloader (before after : list string)
    (line v : string) (bl sn : option string) :
  sets_field "androidboot.bootloader" line v ->
  (forall l, In l after -> contains "androidboot.bootloader" l = false) ->
  fst (scan_bootconfig (before ++ line :: after) bl sn)
  = Some (bootconfig_value v).
Proof.
  intros Hline Hafter. rewrite scan_bootconfig_app. cbn [scan_bootconfig].
  rewrite (scan_bootconfig_keeps_unbound after _ _ Hafter).
  apply bootconfig_field_sets, Hline.
Qed.

Lemma scan_bootconfig_serialno (before after : list string)
    (line v : string) (bl sn : option string) :
  sets_field "androidboot.serialno" line v ->
  (forall l, In l after -> contains "androidboot.serialno" l = false) ->
  snd (scan_bootconfig (before ++ line :: after) bl sn)
  = Some (bootconfig_value v).
Proof.
  intros Hline Hafter. rewrite scan_bootconfig_app. cbn [scan_bootconfig].
  rewrite (scan_bootconfig_keeps_serialno after _ _ Hafter).
  apply bootconfig_field_sets, Hline.
Qed.

Lemma arr_bootloader_as_stated (vendor name serial : string) :
  arr_bootloader vendor name serial = bootloader_device vendor name serial.
Proof. destruct vendor, serial; reflexivity. Qed.

(** X10: from a readable boot configuration in which a line sets the name and a
    line sets the serial number, the name being non-empty, exactly one
    bootloader descriptor is appended; when several lines carry a marker
    the last one decides; the values are stripped of white space and of
    double quotes; the vendor is the capitalised device vendor followed by
    [" Bootloader"], or empty. The device vendor is an ASCII text. *)
Theorem bootloader_source_emits
    (env : Env) (vendor : string) (st : State) (text : string) (l : list dict)
    (before1 after1 before2 after2 : list string) (line1 v1 line2 v2 : string) :
  is_ascii vendor = true ->
  fs env "/proc/bootconfig" = Some (File text) ->
  lines text = before1 ++ line1 :: after1 ->
  sets_field "androidboot.bootloader" line1 v1 ->
  (forall l, In l after1 -> contains "androidboot.bootloader" l = false) ->
  lines text = before2 ++ line2 :: after2 ->
  sets_field "androidboot.serialno" line2 v2 ->
  (forall l, In l after2 -> contains "androidboot.serialno" l = false) ->
  bootconfig_value v1 <> EmptyString ->
  dict_get "Devices" (props st) = Some (V_aasv l) ->
  bootloader_source env vendor st
  = (Ok tt,
     with_devices st
       (l ++ [bootloader_device vendor (bootconfig_value v1)
                (bootconfig_value v2)])).
Proof.
  intros _ Hfile Hl1 Hs1 Ha1 Hl2 Hs2 Ha2 Hname Hdev.
  unfold bootloader_source, read_bootconfig, open_read. rewrite Hfile.
  pose proof (scan_bootconfig_bootloader before1 after1 line1 v1 None None
                Hs1 Ha1) as E1.
  pose proof (scan_bootconfig_serialno before2 after2 line2 v2 None None
                Hs2 Ha2) as E2.
  rewrite <- Hl1 in E1. rewrite <- Hl2 in E2.
  destruct (scan_bootconfig (lines text) None None) as [bl sn].
  simpl in E1, E2. subst bl sn. unfold bind, lift. cbn [fst snd read_local].
  destruct (bootconfig_value v1) as [|c name'] eqn:En;
    [contradiction Hname; reflexivity|].
  cbn [truthy]. rewrite (append_device_to _ st l Hdev).
  rewrite arr_bootloader_as_stated. reflexivity.
Qed.

Lemma bootloader_source_emits_witness :
  bootloader_source (e2e_env "/vendor/build.prop" e2e_bootconfig None) "acme"
    (mkState init_props [])
  = (Ok tt,
     with_devices (mkState init_props [])
       ([] ++ [bootloader_device "acme"
                 (bootconfig_value (" " ++ quoted "abl" ++ chr nl))
                 (bootconfig_value (" " ++ quoted "123" ++ chr nl))])).
Proof.
  apply (bootloader_source_emits
           (e2e_env "/vendor/build.prop" e2e_bootconfig None) "acme"
           (mkState init_props []) e2e_bootconfig []
           [] [("androidboot.serialno = " ++ quoted "123" ++ chr nl)%string]
           [("androidboot.bootloader = " ++ quoted "abl" ++ chr nl)%string] []
           ("androidboot.bootloader = " ++ quoted "abl" ++ chr nl)%string
           (" " ++ quoted "abl" ++ chr nl)%string
           ("androidboot.serialno = " ++ quoted "123" ++ chr nl)%string
           (" " ++ quoted "123" ++ chr nl)%string); try reflexivity.
  - split; [reflexivity|]. exists "androidboot.bootloader ". repeat split.
  - intros l [<- | []]. reflexivity.
  - split; [reflexivity|]. exists "androidboot.serialno ". repeat split.
  - intros l [].
  - discriminate.
Defined.

(** X11: when [/proc/bootconfig] cannot be opened (there is no such path,
    or [open] raises), the fallback to the property [ro.bootloader] yields
    no descriptor: an empty or absent property gives no device, a non-empty
    one makes the building of the descriptor raise for the serial number,
    which only the scan of the boot configuration assigns; an exception of
    the reader passes through. The state is left as it was. *)
Theorem bootloader_fallback_never_emits
    (env : Env) (vendor : string) (st : State) :
  fs env "/proc/bootconfig" = None
  \/ fs env "/proc/bootconfig" = Some Unreadable ->
  bootloader_source env vendor st
  = (match extract_prop (fs env) "ro.bootloader" with
     | Ok EmptyString => Ok tt
     | Ok _ => Raise (UnboundLocalError "bootloader_serialno")
     | Raise e => Raise e
     end, st).
Proof.
  intros H. unfold bootloader_source, read_bootconfig, open_read.
  destruct H as [-> | ->]; unfold bind, lift;
    (destruct (extract_prop (fs env) "ro.bootloader") as [[|c b]|e];
     reflexivity).
Qed.

Lemma bootloader_fallback_never_emits_witness :
  bootloader_source fallback_env "acme" (mkState init_props [])
  = (Raise (UnboundLocalError "bootloader_serialno"), mkState init_props []).
Proof.
  apply (bootloader_fallback_never_emits fallback_env "acme"
           (mkState init_props [])).
  left. reflexivity.
Defined.

(** X12: a boot configuration that sets a non-empty name and has no line with
    the serial-number marker makes the building of the descriptor raise:
    the serial number is read unbound. *)
Theorem bootloader_source_name_without_serialno
    (env : Env) (vendor : string) (st : State) (text : string)
    (before after : list string) (line v : string) :
  fs env "/proc/bootconfig" = Some (File text) ->
  lines text = before ++ line :: after ->
  sets_field "androidboot.bootloader" line v ->
  (forall l, In l after -> contains "androidboot.bootloader" l = false) ->
  (forall l, In l (lines text) -> contains "androidboot.serialno" l = false) ->
  bootconfig_value v <> EmptyString ->
  bootloader_source env vendor st
  = (Raise (UnboundLocalError "bootloader_serialno"), st).
Proof.
  intros Hfile Hl Hs Ha Hno Hname.
  unfold bootloader_source, read_bootconfig, open_read. rewrite Hfile.
  pose proof (scan_bootconfig_bootloader before after line v None None Hs Ha)
    as E1.
  pose proof (scan_bootconfig_keeps_serialno (lines text) None None Hno) as E2.
  rewrite <- Hl in E1.
  destruct (scan_bootconfig (lines text) None None) as [bl sn].
  simpl in E1, E2. subst bl sn. unfold bind, lift. cbn [fst snd read_local].
  destruct (bootconfig_value v); [contradiction Hname|]; reflexivity.
Qed.

Lemma bootloader_source_name_without_serialno_witness :
  bootloader_source name_only_env "acme" (mkState init_props [])
  = (Raise (UnboundLocalError "bootloader_serialno"), mkState init_props []).
Proof.
  apply (bootloader_source_name_without_serialno name_only_env "acme"
           (mkState init_props []) name_only_bootconfig [] []
           name_only_bootconfig (" " ++ quoted "abl" ++ chr nl)%string);
    try reflexivity.
  - split; [reflexivity|]. exists "androidboot.bootloader ". repeat split.
  - intros l [].
  - intros l [<- | []]. reflexivity.
  - discriminate.
Defined.

(** ** The modem source, further *)

Lemma modem_source_malformed_witness :
  modem_source (telephony_env [full_modem; Malformed]) "acme"
    (mkState init_props [])
  = (Ok tt, mkState init_props []).
Proof.
  apply (modem_source_malformed (telephony_env [full_modem; Malformed]) "acme"
           (mkState init_props []) [full_modem; Malformed]).
  - reflexivity.
  - right. left. reflexivity.
Defined.



(** ** The sensor pattern, further *)

Lemma run_of_spec (cls : ascii -> bool) (s : string) :
  run_of cls s = true <-> s <> EmptyString /\ all_chars cls s = true.
Proof.
  unfold run_of. split.
  - intros H. apply andb_prop in H as [Ht Ha]. split; [|exact Ha].
    intros ->. discriminate Ht.
  - intros [Hne Ha]. rewrite Ha. destruct s; [contradiction Hne|]; reflexivity.
Qed.

Lemma hd_plus_ways (cls : ascii -> bool) (m rest : string) :
  m <> EmptyString -> all_chars cls m = true ->
  (forall c r, rest = String c r -> cls c = false) ->
  hd_error (Re.plus_ways cls (m ++ rest)) = Some (m, rest).
Proof.
  intros Hne Hall Hstop. induction m as [|c m IH]; [contradiction Hne; reflexivity|].
  simpl in Hall. apply andb_prop in Hall as [Hc Hm].
  simpl String.append. cbn [Re.plus_ways]. rewrite Hc.
  destruct m as [|d m'].
  - simpl String.append.
    assert (E : Re.plus_ways cls rest = []).
    { destruct rest as [|e r]; [reflexivity|]. cbn [Re.plus_ways].
      rewrite (Hstop e r eq_refl). reflexivity. }
    rewrite E. reflexivity.
  - specialize (IH ltac:(discriminate) Hm).
    destruct (Re.plus_ways cls (String d m' ++ rest)) as [|w ws];
      [discriminate IH|].
    injection IH as ->. reflexivity.
Qed.

Lemma match_here_eps (s : string) :
  Re.match_here Re.Eps s = Some (EmptyString, s, []).
Proof. reflexivity. Qed.

Lemma match_here_chr (c : ascii) (s : string) :
  Re.match_here (Re.Chr c) (chr c ++ s) = Some (chr c, s, []).
Proof.
  unfold Re.match_here. simpl. rewrite Ascii.eqb_refl. reflexivity.
Qed.

Lemma match_here_plus (cls : ascii -> bool) (m rest : string) :
  run_of cls m = true ->
  (forall c r, rest = String c r -> cls c = false) ->
  Re.match_here (Re.Plus cls) (m ++ rest) = Some (m, rest, []).
Proof.
  intros Hrun Hstop. apply run_of_spec in Hrun as [Hne Hall].
  unfold Re.match_here. cbn [Re.ways].
  pose proof (hd_plus_ways cls m rest Hne Hall Hstop) as H.
  destruct (Re.plus_ways cls (m ++ rest)) as [|w ws]; [discriminate H|].
  injection H as ->. reflexivity.
Qed.

Lemma match_here_group (r : Re.regex) (s m s' : string) (g : list string) :
  Re.match_here r s = Some (m, s', g) ->
  Re.match_here (Re.Group r) s = Some (m, s', m :: g).
Proof.
  unfold Re.match_here. cbn [Re.ways].
  destruct (Re.ways r s) as [|w ws]; [discriminate|].
  intros H. injection H as ->. reflexivity.
Qed.

Lemma match_here_cat (r1 r2 : Re.regex) (s m1 s1 m2 s2 : string)
    (g1 g2 : list string) :
  Re.match_here r1 s = Some (m1, s1, g1) ->
  Re.match_here r2 s1 = Some (m2, s2, g2) ->
  Re.match_here (Re.Cat r1 r2) s = Some ((m1 ++ m2)%string, s2, g1 ++ g2).
Proof.
  unfold Re.match_here. cbn [Re.ways].
  destruct (Re.ways r1 s) as [|w1 ws1]; [discriminate|].
  intros H1. injection H1 as ->. cbn [flat_map].
  destruct (Re.ways r2 s1) as [|w2 ws2]; [discriminate|].
  intros H2. injection H2 as ->. reflexivity.
Qed.

Lemma match_here_str (t s : string) :
  Re.match_here (Re.str t) (t ++ s) = Some (t, s, []).
Proof.
  induction t as [|c t IH]; [reflexivity|]. cbn [Re.str].
  exact (match_here_cat (Re.Chr c) (Re.str t) (chr c ++ (t ++ s)) (chr c)
           (t ++ s) t s [] [] (match_here_chr c (t ++ s)) IH).
Qed.

(** At the start of a text that begins with a well-formed record, the
    pattern matches that record and captures its four fields. *)
Lemma match_here_render (r : sensor_record) (rest : string) :
  record_ok r = true ->
  Re.match_here pattern (render r ++ rest) = Some (render r, rest, groups_of r).
Proof.
  unfold record_ok. intros H.
  apply andb_prop in H as [H Hver]. apply andb_prop in H as [H Hvendor].
  apply andb_prop in H as [H Hname]. apply andb_prop in H as [Hid Htype].
  unfold render. rewrite !append_assoc.
  match goal with
  | |- Re.match_here _ ?text = _ =>
      eassert (E : Re.match_here pattern text = Some _)
  end.
  { unfold pattern. cbn [Re.seq].
    eapply match_here_cat; [apply match_here_str|].
    eapply match_here_cat;
      [apply match_here_group, (match_here_plus isdigit _ _ Hid);
       intros c r0 E; unfold chr in E; simpl in E; injection E as <- _;
       reflexivity|].
    eapply match_here_cat; [apply match_here_str|].
    eapply match_here_cat;
      [apply (match_here_plus isdigit _ _ Htype);
       intros c r0 E; unfold chr in E; simpl in E; injection E as <- _;
       reflexivity|].
    eapply match_here_cat; [apply match_here_str|].
    eapply match_here_cat; [apply match_here_chr|].
    eapply match_here_cat;
      [apply match_here_group, (match_here_plus not_dq _ _ Hname);
       intros c r0 E; unfold chr in E; simpl in E; injection E as <- _;
       reflexivity|].
    eapply match_here_cat; [apply match_here_chr|].
    eapply match_here_cat; [apply match_here_str|].
    eapply match_here_cat; [apply match_here_chr|].
    eapply match_here_cat;
      [apply match_here_group, (match_here_plus not_dq _ _ Hvendor);
       intros c r0 E; unfold chr in E; simpl in E; injection E as <- _;
       reflexivity|].
    eapply match_here_cat; [apply match_here_chr|].
    eapply match_here_cat; [apply match_here_str|].
    eapply match_here_cat;
      [apply match_here_group, (match_here_plus isdigit _ _ Hver);
       intros c r0 E; unfold chr in E; simpl in E; injection E as <- _;
       reflexivity|].
    eapply match_here_cat; [apply match_here_str | apply match_here_eps]. }
  rewrite E. reflexivity.
Qed.

Lemma findall_from_skip (r : Re.regex) (m rest : string) :
  Re.findall_from r (String.length m) (m ++ rest) = Re.findall_from r 0 rest.
Proof.
  induction m as [|c m IH]; [destruct rest; reflexivity | exact IH].
Qed.

Lemma findall_from_match (r : Re.regex) (m rest : string) (g : list string) :
  m <> EmptyString ->
  Re.match_here r (m ++ rest) = Some (m, rest, g) ->
  Re.findall_from r 0 (m ++ rest) = g :: Re.findall_from r 0 rest.
Proof.
  intros Hne H. destruct m as [|c m]; [contradiction Hne; reflexivity|].
  change (String c m ++ rest)%string with (String c (m ++ rest)) in *.
  cbn [Re.findall_from]. rewrite H.
  replace (String.length (String c m) - 1) with (String.length m)
    by (simpl; lia).
  rewrite findall_from_skip. reflexivity.
Qed.

Lemma match_here_other_start (c : ascii) (s : string) :
  not_char open_brace c = true -> Re.match_here pattern (String c s) = None.
Proof.
  unfold not_char, open_brace. intros H. apply negb_true_iff in H.
  unfold Re.match_here, pattern. cbn [Re.seq Re.str Re.ways].
  rewrite H. reflexivity.
Qed.

Lemma findall_from_braceless (noise s : string) :
  braceless noise = true ->
  Re.findall_from pattern 0 (noise ++ s) = Re.findall_from pattern 0 s.
Proof.
  induction noise as [|c noise IH]; intros H; [reflexivity|].
  simpl in H. apply andb_prop in H as [Hc Hn].
  change (String c noise ++ s)%string with (String c (noise ++ s)).
  cbn [Re.findall_from]. rewrite (match_here_other_start c _ Hc).
  apply IH, Hn.
Qed.

Lemma findall_from_braceless_nil (s : string) :
  braceless s = true -> Re.findall_from pattern 0 s = [].
Proof.
  induction s as [|c s IH]; intros H; [reflexivity|].
  simpl in H. apply andb_prop in H as [Hc Hs].
  cbn [Re.findall_from]. rewrite (match_here_other_start c _ Hc).
  apply IH, Hs.
Qed.

Lemma render_nonempty (r : sensor_record) : render r <> EmptyString.
Proof. unfold render. discriminate. Qed.

(** X15: round trip of the record grammar: from a text made of well-formed
    records, each preceded by text without an opening brace and the last
    one followed by such text, [findall] returns the four captured fields
    of every record, in order, and nothing else. *)
Theorem findall_render_stream
    (items : list (string * sensor_record)) (trailing : string) :
  Forall (fun it => braceless (fst it) = true /\ record_ok (snd it) = true)
         items ->
  braceless trailing = true ->
  Re.findall pattern (render_stream items trailing)
  = map (fun it => groups_of (snd it)) items.
Proof.
  intros Hitems Htrail. unfold Re.findall.
  induction Hitems as [|[noise r] rest [Hnoise Hr] _ IH].
  - apply findall_from_braceless_nil, Htrail.
  - cbn [render_stream map fst snd] in *.
    rewrite (findall_from_braceless noise _ Hnoise).
    rewrite (findall_from_match pattern (render r) _ (groups_of r)
               (render_nonempty r) (match_here_render r _ Hr)).
    rewrite IH. reflexivity.
Qed.

Lemma findall_render_stream_witness :
  Re.findall pattern
    (render_stream [("[ ", accel); (", ", gyro)] " ]")
  = [groups_of accel; groups_of gyro].
Proof.
  apply (findall_render_stream [("[ ", accel); (", ", gyro)] " ]").
  - repeat constructor.
  - reflexivity.
Defined.

Lemma contains_at_start (m rest : string) : contains m (m ++ rest) = true.
Proof.
  assert (H : startswith (m ++ rest) m = true).
  { induction m as [|c m IH]; [destruct rest; reflexivity|].
    simpl. rewrite Ascii.eqb_refl. exact IH. }
  revert H. generalize (m ++ rest)%string as t. intros t H.
  destruct t; cbn [contains]; rewrite H; reflexivity.
Qed.

Lemma contains_later (sub s : string) (c : ascii) :
  contains sub s = true -> contains sub (String c s) = true.
Proof.
  intros H. cbn [contains]. rewrite H. apply orb_true_r.
Qed.

Lemma matches_pattern_record (m : string) (g : list string) :
  Matches pattern m g ->
  exists r, record_ok r = true /\ m = render r /\ g = groups_of r.
Proof.
  unfold pattern. cbn [Re.seq Re.str]. intros H. invert_matches.
  cbn [app].
  match goal with
  | |- exists r, _ /\ (_ ++ ?i ++ _ ++ ?t ++ _ ++ _ ++ ?n ++ _ ++ _ ++ _
                        ++ ?v ++ _ ++ _ ++ ?w ++ _)%string = _ /\ _ =>
      exists (mkSensor i t n v w)
  end.
  split; [|split; reflexivity].
  unfold record_ok. cbn [s_id s_type s_name s_vendor s_ver].
  repeat match goal with
         | |- context [run_of ?cls ?s] =>
             rewrite (proj2 (run_of_spec cls s)) by (split; assumption)
         end.
  reflexivity.
Qed.

(** X16: everything [findall] returns is the four fields of a well-formed
    record whose text occurs in the output: text that does not have the
    shape of a record yields nothing. *)
Theorem findall_only_records (sensor_out : string) :
  Forall (fun g => exists r, record_ok r = true /\ g = groups_of r
                             /\ contains (render r) sensor_out = true)
         (Re.findall pattern sensor_out).
Proof.
  unfold Re.findall. generalize 0 as skip.
  induction sensor_out as [|c s IH]; intros skip; [constructor|].
  assert (K : forall n, Forall
            (fun g => exists r, record_ok r = true /\ g = groups_of r
                                /\ contains (render r) (String c s) = true)
            (Re.findall_from pattern n s)).
  { intros n. eapply Forall_impl; [|apply (IH n)].
    intros g (r & Hr & Hg & Hc). exists r.
    split; [exact Hr|]. split; [exact Hg|]. apply contains_later, Hc. }
  cbn [Re.findall_from].
  destruct skip as [|n]; [|apply K].
  destruct (Re.match_here pattern (String c s)) as [[[m rest] g]|] eqn:E;
    [|apply K].
  constructor; [|apply K].
  destruct (match_here_sound pattern _ m rest g E) as [HM Hs].
  destruct (matches_pattern_record m g HM) as (r & Hr & -> & ->).
  exists r. split; [exact Hr|]. split; [reflexivity|].
  rewrite Hs. apply contains_at_start.
Qed.

(** ** The sensor source, further *)

Lemma probe_sensors_prefix (env : Env) (versions : list string) :
  forall cur st,
    exists n out,
      n <= length versions
      /\ (versions <> [] -> 1 <= n)
      /\ probe_sensors env versions cur st
         = (Ok out, logged st (firstn n versions)).
Proof.
  induction versions as [|v rest IH]; intros cur st.
  - exists 0, cur. split; [reflexivity|]. split; [intros H; contradiction H; reflexivity|].
    cbn [probe_sensors firstn]. rewrite logged_nil. reflexivity.
  - cbn [probe_sensors]. unfold bind, run_popen.
    destruct (truthy (strip (popen env (command v)))).
    + exists 1, (popen env (command v)). split; [simpl; lia|].
      split; [intros _; lia | reflexivity].
    + destruct (IH (popen env (command v))
                   (mkState (props st) (popen_log st ++ [command v])))
        as (n & out & Hn & _ & ->).
      exists (S n), out. split; [simpl; lia|]. split; [intros _; lia|].
      cbn [firstn]. rewrite logged_cons. reflexivity.
Qed.

Lemma append_device_log (d : dict) (st : State) :
  popen_log (snd (append_device d st)) = popen_log st.
Proof.
  unfold append_device.
  destruct (dict_get "Devices" (props st)) as [[s|b|n|n|l]|]; reflexivity.
Qed.

Lemma parse_sensors_log (sensor_out : string) (st : State) :
  popen_log (snd (parse_sensors sensor_out st)) = popen_log st.
Proof.
  unfold parse_sensors. destruct (truthy (strip sensor_out)); [|reflexivity].
  apply (frame_append_sensors (fun s => popen_log s = popen_log st));
    [|reflexivity].
  intros i n v s s0 H. rewrite append_device_log. exact H.
Qed.

(** X17: the sensor source starts at least one and at most three subprocesses,
    and the commands are a leading part of the fixed list, in its order:
    version 2.0 is never tried without 1.0, nor 2.1 without 2.0. *)
Theorem sensor_source_commands (env : Env) (st : State) :
  exists n,
    1 <= n <= 3
    /\ popen_log (snd (sensor_source env st))
       = popen_log st ++ map command (firstn n sensor_hal).
Proof.
  unfold sensor_source, bind.
  destruct (probe_sensors_prefix env sensor_hal EmptyString st)
    as (n & out & Hn & H1 & ->).
  exists n. split; [split; [apply H1; discriminate | exact Hn]|].
  rewrite parse_sensors_log. reflexivity.
Qed.

Lemma all_chars_impl (p q : ascii -> bool) (s : string) :
  (forall c, p c = true -> q c = true) ->
  all_chars p s = true -> all_chars q s = true.
Proof.
  intros Hpq. induction s as [|c s IH]; [reflexivity|]. simpl. intros H.
  apply andb_prop in H as [Hc Hs]. rewrite (Hpq c Hc), (IH Hs). reflexivity.
Qed.

Lemma rstrip_empty (p : ascii -> bool) (s : string) :
  rstrip_by p s = EmptyString -> all_chars p s = true.
Proof.
  induction s as [|c s IH]; [reflexivity|]. cbn [rstrip_by].
  destruct (rstrip_by p s) as [|d r]; [|discriminate].
  destruct (p c) eqn:Hc; [|discriminate]. intros _. simpl.
  rewrite Hc. apply IH. reflexivity.
Qed.

Lemma lstrip_all (p : ascii -> bool) (s : string) :
  all_chars p (lstrip_by p s) = true -> all_chars p s = true.
Proof.
  induction s as [|c s IH]; [reflexivity|]. cbn [lstrip_by].
  destruct (p c) eqn:Hc; [|intros H; exact H].
  intros H. simpl. rewrite Hc. apply IH, H.
Qed.

Lemma space_is_no_brace (c : ascii) :
  isspace c = true -> not_char open_brace c = true.
Proof.
  intros H. unfold not_char.
  destruct (Ascii.eqb_spec c open_brace) as [-> | _];
    [vm_compute in H; discriminate H | reflexivity].
Qed.

(** A blank output has no match. *)
Lemma blank_findall_nil (out : string) :
  blank out -> Re.findall pattern out = [].
Proof.
  unfold blank, strip, strip_by. intros H.
  apply findall_from_braceless_nil. unfold braceless.
  apply (all_chars_impl isspace _ out space_is_no_brace).
  apply lstrip_all, rstrip_empty, H.
Qed.

(** The sensor parser on any output: it returns, and the device list is
    extended by one descriptor per match, in the order of the matches. *)
Lemma parse_sensors_devices (sensor_out : string) (st : State)
    (l : list dict) :
  dict_get "Devices" (props st) = Some (V_aasv l) ->
  fst (parse_sensors sensor_out st) = Ok tt
  /\ GetDevices (snd (parse_sensors sensor_out st))
     = Ok (V_aasv (l ++ map sensor_of_match (Re.findall pattern sensor_out))).
Proof.
  intros Hdev. unfold parse_sensors.
  destruct (truthy (strip sensor_out)) eqn:Hb.
  - rewrite (append_sensors_appends (Re.findall pattern sensor_out))
      with (l := l); [| |exact Hdev].
    + split; [reflexivity|]. cbn [snd].
      destruct (Re.findall pattern sensor_out) as [|g gs].
      * unfold GetDevices, prop_value. rewrite Hdev, app_nil_r. reflexivity.
      * unfold GetDevices, prop_value, with_devices. simpl props.
        rewrite dict_get_set_same. reflexivity.
    + unfold Re.findall. apply findall_from_Forall.
      exact match_here_sensor_groups.
  - rewrite blank_findall_nil.
    + split; [reflexivity|]. unfold GetDevices, prop_value. cbn [snd ret].
      rewrite Hdev, app_nil_r. reflexivity.
    + unfold blank. destruct (strip sensor_out); [reflexivity | discriminate Hb].
Qed.

(** X18: the sensor parser of lines 125-145, applied to any text on a state
    that holds a device list, returns: it extends the list by exactly one
    descriptor per match of the pattern, in the order of the matches (by
    nothing when there is no match), and starts no subprocess. *)
Theorem parse_sensors_appends_matches (sensor_out : string) (st : State)
    (l : list dict) :
  dict_get "Devices" (props st) = Some (V_aasv l) ->
  fst (parse_sensors sensor_out st) = Ok tt
  /\ GetDevices (snd (parse_sensors sensor_out st))
     = Ok (V_aasv (l ++ map sensor_of_match (Re.findall pattern sensor_out)))
  /\ length (devices (snd (parse_sensors sensor_out st)))
     = length l + length (Re.findall pattern sensor_out)
  /\ popen_log (snd (parse_sensors sensor_out st)) = popen_log st.
Proof.
  intros Hdev.
  destruct (parse_sensors_devices sensor_out st l Hdev) as [H1 H2].
  split; [exact H1|]. split; [exact H2|]. split.
  - unfold devices. rewrite (GetDevices_inv _ _ H2).
    rewrite length_app, length_map. reflexivity.
  - apply parse_sensors_log.
Qed.

Lemma parse_sensors_appends_matches_witness :
  fst (parse_sensors (render_stream [("[ ", accel); (", ", gyro)] " ]")
         (mkState init_props []))
  = Ok tt
  /\ GetDevices
       (snd (parse_sensors (render_stream [("[ ", accel); (", ", gyro)] " ]")
               (mkState init_props [])))
     = Ok (V_aasv
             ([] ++ map sensor_of_match
                      (Re.findall pattern
                         (render_stream [("[ ", accel); (", ", gyro)] " ]"))))
  /\ length
       (devices
          (snd (parse_sensors
                  (render_stream [("[ ", accel); (", ", gyro)] " ]")
                  (mkState init_props []))))
     = length (@nil dict)
       + length (Re.findall pattern
                   (render_stream [("[ ", accel); (", ", gyro)] " ]"))
  /\ popen_log
       (snd (parse_sensors (render_stream [("[ ", accel); (", ", gyro)] " ]")
               (mkState init_props [])))
     = popen_log (mkState init_props []).
Proof.
  apply (parse_sensors_appends_matches
           (render_stream [("[ ", accel); (", ", gyro)] " ]")
           (mkState init_props []) []).
  reflexivity.
Defined.

(** X19: the first output that is not blank ends the probe also when nothing in
    it can be parsed: an output without an opening brace yields no device
    and the later versions are not tried. *)
Theorem sensor_probe_stops_at_unparseable
    (env : Env) (st : State) (pre post : list string) (v : string) :
  sensor_hal = pre ++ v :: post ->
  Forall (fun u => blank (popen env (command u))) pre ->
  ~ blank (popen env (command v)) ->
  braceless (popen env (command v)) = true ->
  sensor_source env st = (Ok tt, logged st (pre ++ [v])).
Proof.
  intros Hhal Hpre Hv Hbr. unfold sensor_source, bind.
  rewrite Hhal, (probe_sensors_first env pre v post _ st Hpre Hv).
  unfold parse_sensors. rewrite (truthy_not_blank _ Hv).
  unfold Re.findall. rewrite (findall_from_braceless_nil _ Hbr). reflexivity.
Qed.

Lemma sensor_probe_stops_at_unparseable_witness :
  sensor_source (sensor_env "error: no service" accel_record accel_record)
    (mkState init_props [])
  = (Ok tt, logged (mkState init_props []) ([] ++ ["1.0"])).
Proof.
  apply (sensor_probe_stops_at_unparseable
           (sensor_env "error: no service" accel_record accel_record)
           (mkState init_props []) [] ["2.0"; "2.1"] "1.0").
  - reflexivity.
  - constructor.
  - vm_compute. discriminate.
  - reflexivity.
Defined.

(** ** Invariants of the device list *)

Lemma all_devices_append (Q : dict -> Prop) (d : dict) :
  Q d -> preserves (all_devices Q) (append_device d).
Proof.
  intros Hd st (l & E & Hl). apply GetDevices_inv in E.
  rewrite (append_device_to d st l E). simpl.
  exists (l ++ [d]). split.
  - unfold GetDevices, prop_value, with_devices. simpl.
    rewrite dict_get_set_same. reflexivity.
  - apply Forall_app. split; [exact Hl|].
    constructor; [exact Hd | constructor].
Qed.

Lemma all_devices_set_prop (Q : dict -> Prop) (k : string) (v : Variant) :
  k <> "Devices" -> preserves (all_devices Q) (set_prop k v).
Proof.
  intros Hk st H. unfold all_devices, GetDevices, prop_value, set_prop in *.
  simpl. rewrite (dict_get_set_other k "Devices" v (props st) Hk). exact H.
Qed.

Lemma id_and_version_arr_bootloader (vendor name serial : string) :
  id_and_version (arr_bootloader vendor name serial).
Proof.
  split; [reflexivity|]. exists "1". split; [reflexivity | discriminate].
Qed.

Lemma id_and_version_arr_modem (vendor rev ver serial : string) :
  id_and_version (arr_modem vendor rev ver serial).
Proof.
  split; [reflexivity|].
  destruct ver as [|c ver'];
    [exists "1" | exists (String c ver')];
    (split; [reflexivity | discriminate]).
Qed.

Lemma id_and_version_arr_sensor (id name vendor ver : string) :
  id_and_version (arr_sensor id name vendor ver).
Proof.
  split; [reflexivity|].
  destruct ver as [|c ver'];
    [exists "1" | exists (String c ver')];
    (split; [reflexivity | discriminate]).
Qed.

(** X20: in every environment, whether start-up returns or raises, every
    descriptor in the device list has the id ["1"] (the ids of the
    bootloader, the modem and all sensors coincide) and a version that is
    not empty. *)
Theorem devices_id_and_version (env : Env) :
  exists l,
    GetDevices (snd (FWUPDInterface env)) = Ok (V_aasv l)
    /\ Forall id_and_version l.
Proof.
  apply (frame_set_props (all_devices id_and_version)).
  - intros. apply all_devices_append, id_and_version_arr_bootloader.
  - intros. apply all_devices_append, id_and_version_arr_modem.
  - intros. apply all_devices_append, id_and_version_arr_sensor.
  - intros env' c st H. exact H.
  - intros k v Hk. apply all_devices_set_prop. intros ->.
    simpl in Hk. repeat (destruct Hk as [Hk | Hk]; [discriminate Hk|]).
    exact Hk.
  - exists []. split; [reflexivity | constructor].
Qed.

Lemma extends_append (l : list dict) (d : dict) :
  preserves (extends l) (append_device d).
Proof.
  intros st (more & E). apply GetDevices_inv in E.
  rewrite (append_device_to d st _ E). simpl.
  exists (more ++ [d]). unfold GetDevices, prop_value, with_devices. simpl.
  rewrite dict_get_set_same, app_assoc. reflexivity.
Qed.

(** X21: [set_props] only appends: the devices a state holds before it are,
    unchanged and in their order, the first devices of the list after it,
    whether it returns or raises. *)
Theorem set_props_only_appends (env : Env) (st : State) (l : list dict) :
  GetDevices st = Ok (V_aasv l) ->
  extends l (snd (set_props env st)).
Proof.
  intros H. apply (frame_set_props (extends l)).
  - intros. apply extends_append.
  - intros. apply extends_append.
  - intros. apply extends_append.
  - intros env' c st' H'. exact H'.
  - intros k v Hk st' (more & E). exists more.
    unfold GetDevices, prop_value, set_prop in *. simpl.
    rewrite dict_get_set_other; [exact E|]. intros ->.
    simpl in Hk. repeat (destruct Hk as [Hk | Hk]; [discriminate Hk|]).
    exact Hk.
  - exists []. rewrite app_nil_r. exact H.
Qed.

Lemma set_props_only_appends_witness :
  extends [accel_device]
    (snd (set_props (e2e_env "/vendor/build.prop" e2e_bootconfig None)
            one_device_state)).
Proof.
  apply (set_props_only_appends
           (e2e_env "/vendor/build.prop" e2e_bootconfig None)
           one_device_state [accel_device]).
  reflexivity.
Defined.

(** ** The order of the device list *)

Lemma sensor_source_outputs (files : filesystem) (service : telephony)
    (o10 o20 o21 : string) (st : State) (l : list dict) :
  dict_get "Devices" (props st) = Some (V_aasv l) ->
  fst (sensor_source (mkEnv files service (outputs o10 o20 o21)) st) = Ok tt
  /\ GetDevices
       (snd (sensor_source (mkEnv files service (outputs o10 o20 o21)) st))
     = Ok (V_aasv (l ++ map sensor_of_match
                          (Re.findall pattern (chosen_output o10 o20 o21)))).
Proof.
  intros Hdev.
  assert (E : exists st',
             probe_sensors (mkEnv files service (outputs o10 o20 o21))
               sensor_hal EmptyString st
             = (Ok (chosen_output o10 o20 o21), st')
             /\ props st' = props st).
  { unfold sensor_hal. cbn [probe_sensors]. unfold bind, run_popen.
    cbn [popen].
    change (outputs o10 o20 o21 (command "1.0")) with o10.
    change (outputs o10 o20 o21 (command "2.0")) with o20.
    change (outputs o10 o20 o21 (command "2.1")) with o21.
    unfold chosen_output.
    destruct (truthy (strip o10)); [eexists; split; reflexivity|].
    destruct (truthy (strip o20)); [eexists; split; reflexivity|].
    destruct (truthy (strip o21)); eexists; split; reflexivity. }
  destruct E as (st' & E & Hprops).
  unfold sensor_source, bind. rewrite E.
  apply parse_sensors_devices. rewrite Hprops. exact Hdev.
Qed.

(** X22: the device list is in the order of discovery: with the end-to-end
    files, a telephony service that reports one modem with its three
    fields and any sensor outputs, start-up returns and the list is the
    bootloader, then the modem, then one descriptor per match in the
    output the probe settled on, in the order of the matches; nothing is
    merged although all ids are ["1"]. *)
Theorem startup_device_order (path rev serial ver o10 o20 o21 : string) :
  let r := FWUPDInterface (full_env path rev serial ver o10 o20 o21) in
  fst r = Ok tt
  /\ GetDevices (snd r)
     = Ok (V_aasv
             (e2e_device :: modem_device "acme" rev ver serial
              :: map sensor_of_match
                   (Re.findall pattern (chosen_output o10 o20 o21)))).
Proof.
  cbv zeta. unfold FWUPDInterface.
  rewrite (set_props_after_host (full_env path rev serial ver o10 o20 o21)
             (mkState init_props []) "acme" "widget" EmptyString
             eq_refl eq_refl eq_refl).
  set (st3 := mkState _ _).
  assert (Eb : bootloader_source (full_env path rev serial ver o10 o20 o21)
                 "acme" st3
               = (Ok tt, with_devices st3 [e2e_device]))
    by reflexivity.
  rewrite (bind_ok _ _ _ _ _ Eb).
  assert (Em : modem_source (full_env path rev serial ver o10 o20 o21)
                 "acme" (with_devices st3 [e2e_device])
               = (Ok tt,
                  with_devices st3
                    [e2e_device; modem_device "acme" rev ver serial])).
  { unfold modem_source, telephony_try, GetModems, full_env.
    cbn [ofono_service rbind scan_modems capture lookup String.eqb
         Ascii.eqb Bool.eqb modem_rev modem_serial modem_ver].
    unfold bind, lift, read_local.
    rewrite (append_device_to _ (with_devices st3 [e2e_device]) [e2e_device])
      by reflexivity.
    rewrite with_devices_twice, arr_modem_as_stated. reflexivity. }
  rewrite (bind_ok _ _ _ _ _ Em).
  apply (sensor_source_outputs _ _ o10 o20 o21 _
           [e2e_device; modem_device "acme" rev ver serial]).
  reflexivity.
Qed.
